(** * Income & Debt Tracker: the financial core, the filters and the actions

    A shallow embedding of [income_debt_tracker_debi_bocha_starter_app.jsx].

    Conventions of the embedding.
    - A JavaScript number is an exact rational ([Q]), and arithmetic
      results are compared with [==].  What depends on the rounding of
      the doubles is stated on [Double], where the same functions run on
      binary64 numbers.
    - A property that may be absent from an object is an [option]; [None]
      stands for [undefined].  [truthy_num], [truthy_str], [nullish] and
      [or0] are the language's [x ? a : b], [x && ...], [x ?? d] and
      [x || 0] on such values.
    - An ISO date string "YYYY-MM-DD" is the record [isodate]; its prefix
      [date.slice(0,7)] is the pair (year, month), and [localeCompare] on
      two such prefixes is the lexicographic order on the pairs.  A row
      whose date is a day of the calendar satisfies [calendarDate].
    - A [Date] object is the record [jsDate] of its UTC fields; the local
      time zone is taken to be UTC, and [<] on two dates is the
      lexicographic order on the fields.
    - [uid()], [Math.random()] and the clock are arguments of the actions
      that use them. *)

From Stdlib Require Import ZArith QArith Qminmax Bool List String Lia.
From Stdlib Require Import Permutation Sorted.
From Stdlib Require Import PrimFloat.
Import ListNotations.

Local Open Scope string_scope.
Local Open Scope Q_scope.

(** ** Values of the language *)

Definition truthy_num (x : option Q) : bool :=
  match x with
  | Some q => negb (Qeq_bool q 0)
  | None => false
  end.

Definition truthy_str (x : option string) : bool :=
  match x with
  | Some s => negb (String.eqb s "")
  | None => false
  end.

(** [x ?? d] *)
Definition nullish (x : option Q) (d : Q) : Q :=
  match x with
  | Some q => q
  | None => d
  end.

(** [x || 0] on a number that may be undefined *)
Definition or0 (x : option Q) : Q :=
  match x with
  | Some q => if Qeq_bool q 0 then 0 else q
  | None => 0
  end.

(** [o !== s] where [o] may be undefined *)
Definition strict_neq (o : option string) (s : string) : bool :=
  match o with
  | Some x => negb (String.eqb x s)
  | None => true
  end.

(** [o === s] where [o] may be undefined *)
Definition strict_eq (o : option string) (s : string) : bool :=
  negb (strict_neq o s).

(** [o || d] on a string that may be null *)
Definition or_str (o : option string) (d : string) : string :=
  if truthy_str o then match o with Some s => s | None => d end else d.

(** ** Data model *)

Record adjustment := mkAdj {
  adj_id : string;
  label : string;
  type : string;          (* 'fixed' | 'percent' *)
  value : Q
}.

Record splitSpec := mkSplit {
  mode : string;          (* 'amount' | 'percent' *)
  debi : option Q;
  bocha : option Q
}.

Record isodate := mkDate {
  year : Z;
  month : Z;              (* 1 .. 12 *)
  day : Z
}.

(** One shape for invoices and expenses: the properties an invoice has
    and an expense lacks (and the other way round) are optional. *)
Record row := mkRow {
  id : string;
  date : isodate;
  clientId : option string;
  invoiceNo : option string;
  description : option string;
  currency : string;
  amount : Q;
  fxRate : option Q;
  createdBy : option string;
  paidBy : option string;
  adjustments : list adjustment;
  split : splitSpec;
  notes : option string
}.

Record client := mkClient {
  client_id : string;
  name : string
}.

Record metaT := mkMeta {
  members : list string;
  clients : list client;
  logoDataUrl : option string
}.

Record settingsT := mkSettings {
  settings_period : string
}.

Record logEntry := mkLog {
  log_id : string;
  ts : string;
  log_user : string;
  action : string;
  payload : string        (* the id of the row the action is about *)
}.

Record database := mkDb {
  meta : metaT;
  settings : settingsT;
  invoices : list row;
  expenses : list row;
  changelog : list logEntry
}.

(** ** Compute USD for a row *)

Definition usdOf (r : row) : Q :=
  if String.eqb (currency r) "USD" then amount r
  else match fxRate r with
       | Some fx => if truthy_num (Some fx) then amount r / fx else 0
       | None => 0
       end.

Definition adjStep (acc : Q) (adj : adjustment) : Q :=
  if String.eqb (type adj) "percent"
  then acc * (1 + value adj / 100)
  else acc + value adj.

Definition netUsdOf (r : row) : Q :=
  fold_left adjStep (adjustments r) (usdOf r).

(** ** Split helper *)

Record shares := mkShares {
  debiUSD : Q;
  bochaUSD : Q
}.

Definition splitUsd (r : row) : shares :=
  let net := netUsdOf r in
  if String.eqb (mode (split r)) "amount" then
    let debi := nullish (debi (split r)) 0 in
    let bocha := nullish (bocha (split r)) 0 in
    {| debiUSD := debi; bochaUSD := bocha |}
  else
    let d := nullish (debi (split r)) 0 / 100 in
    let b := nullish (bocha (split r)) 0 / 100 in
    {| debiUSD := net * d; bochaUSD := net * b |}.

(** ** Debt convention: the balance is "Bocha owes Debi" *)

Definition debtDeltaIncome (inv : row) : Q :=
  let s := splitUsd inv in
  if strict_eq (createdBy inv) "Debi" then - bochaUSD s else debiUSD s.

Definition debtDeltaExpense (exp : row) : Q :=
  let s := splitUsd exp in
  if strict_eq (paidBy exp) "Debi" then bochaUSD s else - debiUSD s.

(** [debt] of the main component *)
Definition debt (db : database) : Q :=
  let inc := fold_left (fun acc r => acc + debtDeltaIncome r) (invoices db) 0 in
  let exp := fold_left (fun acc r => acc + debtDeltaExpense r) (expenses db) 0 in
  inc + exp.

(** [totals] of the main component; [user] is the logged-in member *)
Record totalsT := mkTotals {
  incomeUSD : Q;
  yourShare : Q;
  partnerShare : Q
}.

Definition totals (db : database) (user : option string) : totalsT :=
  let incomeUSD :=
    fold_left (fun a r => a + Qmax 0 (netUsdOf r)) (invoices db) 0 in
  let yourShare :=
    fold_left (fun a r => a + (if strict_eq user "Debi"
                               then debiUSD (splitUsd r)
                               else bochaUSD (splitUsd r))) (invoices db) 0 in
  let partnerShare := incomeUSD - yourShare in
  {| incomeUSD := incomeUSD; yourShare := yourShare;
     partnerShare := partnerShare |}.

(** ** Dates *)

Record jsDate := mkJsDate {
  fullYear : Z;
  monthIdx : Z;           (* 0 .. 11 *)
  dayOfMonth : Z;
  msOfDay : Z             (* milliseconds since midnight *)
}.

Section Dates.
Local Open Scope Z_scope.

Definition leapYear (y : Z) : bool :=
  ((y mod 4 =? 0) && negb (y mod 100 =? 0)) || (y mod 400 =? 0).

Definition daysInMonth (y m : Z) : Z :=
  if m =? 1 then (if leapYear y then 29 else 28)
  else if (m =? 3) || (m =? 5) || (m =? 8) || (m =? 10) then 30
  else 31.

(** The date with the given fields, where the month index may lie outside
    0..11 and the day may exceed the length of the month (by less than a
    month), as [setMonth], [setDate] and [setFullYear] leave them. *)
Definition makeDate (y m d ms : Z) : jsDate :=
  let y' := y + m / 12 in
  let m' := m mod 12 in
  if d >? daysInMonth y' m'
  then {| fullYear := y' + (m' + 1) / 12; monthIdx := (m' + 1) mod 12;
          dayOfMonth := d - daysInMonth y' m'; msOfDay := ms |}
  else {| fullYear := y'; monthIdx := m'; dayOfMonth := d; msOfDay := ms |}.

Definition setDate (d : jsDate) (n : Z) : jsDate :=
  makeDate (fullYear d) (monthIdx d) n (msOfDay d).

Definition setMonth (d : jsDate) (m : Z) : jsDate :=
  makeDate (fullYear d) m (dayOfMonth d) (msOfDay d).

Definition setFullYear (d : jsDate) (y : Z) : jsDate :=
  makeDate y (monthIdx d) (dayOfMonth d) (msOfDay d).

(** [new Date("YYYY-MM-DD")]: midnight of that day *)
Definition newDate (s : isodate) : jsDate :=
  {| fullYear := year s; monthIdx := month s - 1; dayOfMonth := day s;
     msOfDay := 0 |}.

(** [d.toISOString().slice(0, 10)] *)
Definition isoOf (d : jsDate) : isodate :=
  {| year := fullYear d; month := monthIdx d + 1; day := dayOfMonth d |}.

Definition todayISO (now : jsDate) : isodate := isoOf now.

(** [a < b] on dates *)
Definition date_ltb (a b : jsDate) : bool :=
  (fullYear a <? fullYear b)
  || ((fullYear a =? fullYear b)
      && ((monthIdx a <? monthIdx b)
          || ((monthIdx a =? monthIdx b)
              && ((dayOfMonth a <? dayOfMonth b)
                  || ((dayOfMonth a =? dayOfMonth b)
                      && (msOfDay a <? msOfDay b)))))).

Definition lastMonths (n : Z) (now : jsDate) : isodate * isodate :=
  let d := setDate now 1 in
  let d := setMonth d (monthIdx d - (n - 1)) in
  let start := isoOf d in
  (start, todayISO now).

Definition dateRangeFor (now : jsDate) (period : string) : jsDate * jsDate :=
  let defaultStart := fst (lastMonths 6 now) in
  let start := newDate defaultStart in
  let start := if String.eqb period "12m"
               then setMonth start (monthIdx now - 11) else start in
  let start := if String.eqb period "ytd"
               then setFullYear (setDate (setMonth start 0) 1) (fullYear now)
               else start in
  if String.eqb period "all" then (newDate (mkDate 2000 1 1), now)
  else (start, now).

(** Order on ISO dates, and the first day of the month that lies [k]
    months before the month of [now]: the words the filter is described
    in. *)
Definition iso_leb (a b : isodate) : bool :=
  (year a <? year b)
  || ((year a =? year b)
      && ((month a <? month b)
          || ((month a =? month b) && (day a <=? day b)))).

Definition firstOfMonthBefore (now : jsDate) (k : Z) : isodate :=
  let t := fullYear now * 12 + monthIdx now - k in
  {| year := t / 12; month := t mod 12 + 1; day := 1 |}.

Definition validNow (now : jsDate) : Prop :=
  0 <= monthIdx now < 12 /\ 1 <= dayOfMonth now <= 31 /\ 0 <= msOfDay now.

End Dates.

(** ** Filters *)

Record filters := mkFlt {
  period : string;        (* 6m | 12m | ytd | all *)
  flt_clientId : string;
  creator : string
}.

Definition matchesFilters (flt : filters) (now : jsDate) (r : row) : bool :=
  let d := newDate (date r) in
  let (start, end_) := dateRangeFor now (period flt) in
  if date_ltb d start || date_ltb end_ d then false
  else if truthy_str (clientId r)
          && negb (String.eqb (flt_clientId flt) "all")
          && strict_neq (clientId r) (flt_clientId flt) then false
  else if truthy_str (createdBy r)
          && negb (String.eqb (creator flt) "all")
          && strict_neq (createdBy r) (creator flt) then false
  else true.

(** ** Monthly chart data *)

Definition ym := (Z * Z)%type.

(** [date.slice(0, 7)] *)
Definition slice7 (d : isodate) : ym := (year d, month d).

Definition ym_eqb (a b : ym) : bool :=
  (fst a =? fst b)%Z && (snd a =? snd b)%Z.

(** [a.localeCompare(b) <= 0] *)
Definition ym_leb (a b : ym) : bool :=
  (fst a <? fst b)%Z || ((fst a =? fst b)%Z && (snd a <=? snd b)%Z).

Definition ym_lt (a b : ym) : Prop :=
  (fst a < fst b)%Z \/ (fst a = fst b /\ snd a < snd b)%Z.

(** A [Map]: the entries in insertion order, one per key. *)
Definition jsMap := list (ym * Q).

Fixpoint map_get (m : jsMap) (k : ym) : option Q :=
  match m with
  | [] => None
  | (k', v) :: m' => if ym_eqb k' k then Some v else map_get m' k
  end.

Fixpoint map_set (m : jsMap) (k : ym) (v : Q) : jsMap :=
  match m with
  | [] => [(k, v)]
  | (k', v') :: m' =>
      if ym_eqb k' k then (k', v) :: m' else (k', v') :: map_set m' k v
  end.

Definition add (m : jsMap) (d : isodate) (val : Q) : jsMap :=
  let k := slice7 d in
  map_set m k (or0 (map_get m k) + val).

(** [Array.prototype.sort] with the comparator on the keys *)
Fixpoint insert_entry (e : ym * Q) (l : list (ym * Q)) : list (ym * Q) :=
  match l with
  | [] => [e]
  | e' :: l' =>
      if ym_leb (fst e) (fst e') then e :: e' :: l'
      else e' :: insert_entry e l'
  end.

Fixpoint sort_entries (l : list (ym * Q)) : list (ym * Q) :=
  match l with
  | [] => []
  | e :: l' => insert_entry e (sort_entries l')
  end.

Definition monthly (db : database) (flt : filters) (now : jsDate)
  : list (ym * Q) :=
  let map := [] in
  let map := fold_left
               (fun m r => if matchesFilters flt now r
                           then add m (date r) (netUsdOf r) else m)
               (invoices db) map in
  let map := fold_left
               (fun m r => if matchesFilters flt now r
                           then add m (date r) (- netUsdOf r) else m)
               (expenses db) map in
  sort_entries map.

(** ** Actions and change log

    Every action is the function handed to [setDb]: from the current
    document to the next one. *)

(** The object given to [updateRow]: the properties it names. *)
Record patch := mkPatch {
  p_id : option string;
  p_date : option isodate;
  p_clientId : option string;
  p_invoiceNo : option string;
  p_description : option string;
  p_currency : option string;
  p_amount : option Q;
  p_fxRate : option Q;
  p_createdBy : option string;
  p_paidBy : option string;
  p_adjustments : option (list adjustment);
  p_split : option splitSpec;
  p_notes : option string
}.

Definition over {A : Type} (p : option A) (x : A) : A :=
  match p with
  | Some v => v
  | None => x
  end.

Definition over_opt {A : Type} (p : option A) (x : option A) : option A :=
  match p with
  | Some v => Some v
  | None => x
  end.

(** [{ ...r, ...patch }] *)
Definition spread (r : row) (p : patch) : row :=
  {| id := over (p_id p) (id r);
     date := over (p_date p) (date r);
     clientId := over_opt (p_clientId p) (clientId r);
     invoiceNo := over_opt (p_invoiceNo p) (invoiceNo r);
     description := over_opt (p_description p) (description r);
     currency := over (p_currency p) (currency r);
     amount := over (p_amount p) (amount r);
     fxRate := over_opt (p_fxRate p) (fxRate r);
     createdBy := over_opt (p_createdBy p) (createdBy r);
     paidBy := over_opt (p_paidBy p) (paidBy r);
     adjustments := over (p_adjustments p) (adjustments r);
     split := over (p_split p) (split r);
     notes := over_opt (p_notes p) (notes r) |}.

(** [cur[key]] and [{ ...cur, [key]: rows }] for the two keys in use *)
Definition getKey (cur : database) (key : string) : list row :=
  if String.eqb key "invoices" then invoices cur else expenses cur.

Definition setKey (cur : database) (key : string) (rows : list row)
  : database :=
  if String.eqb key "invoices"
  then {| meta := meta cur; settings := settings cur; invoices := rows;
          expenses := expenses cur; changelog := changelog cur |}
  else {| meta := meta cur; settings := settings cur;
          invoices := invoices cur; expenses := rows;
          changelog := changelog cur |}.

Definition log (user : option string) (uid now : string)
  (action payload : string) (cur : database) : database :=
  {| meta := meta cur; settings := settings cur; invoices := invoices cur;
     expenses := expenses cur;
     changelog :=
       {| log_id := uid; ts := now; log_user := or_str user "sys";
          action := action; payload := payload |} :: changelog cur |}.

Definition addClient (uid name : string) (cur : database) : database :=
  {| meta := {| members := members (meta cur);
                clients := clients (meta cur)
                           ++ [ {| client_id := "c-" ++ uid; name := name |} ];
                logoDataUrl := logoDataUrl (meta cur) |};
     settings := settings cur; invoices := invoices cur;
     expenses := expenses cur; changelog := changelog cur |}.

Definition curClientId (db : database) : string :=
  or_str (match clients (meta db) with
          | c :: _ => Some (client_id c)
          | [] => None
          end) "".

Definition addInvoice (user : option string) (rowId invNo logId now : string)
  (today : isodate) (cur : database) : database :=
  let row :=
    {| id := rowId; date := today; clientId := Some (curClientId cur);
       invoiceNo := Some ("INV-" ++ invNo); description := None;
       currency := "USD"; amount := 0; fxRate := Some 0;
       createdBy := Some (or_str user "Debi"); paidBy := None;
       adjustments := [];
       split := {| mode := "percent"; debi := Some 50; bocha := Some 50 |};
       notes := Some "" |} in
  let cur := {| meta := meta cur; settings := settings cur;
                invoices := row :: invoices cur; expenses := expenses cur;
                changelog := changelog cur |} in
  log user logId now "add_invoice" (id row) cur.

Definition addExpense (user : option string) (rowId logId now : string)
  (today : isodate) (cur : database) : database :=
  let row :=
    {| id := rowId; date := today; clientId := None; invoiceNo := None;
       description := Some ""; currency := "USD"; amount := 0;
       fxRate := Some 0; createdBy := None;
       paidBy := Some (or_str user "Debi"); adjustments := [];
       split := {| mode := "percent"; debi := Some 50; bocha := Some 50 |};
       notes := None |} in
  let cur := {| meta := meta cur; settings := settings cur;
                invoices := invoices cur; expenses := row :: expenses cur;
                changelog := changelog cur |} in
  log user logId now "add_expense" (id row) cur.

Definition updateRow (type id_ : string) (p : patch) (cur : database)
  : database :=
  let key := if String.eqb type "invoice" then "invoices" else "expenses" in
  let rows := map (fun r => if String.eqb (id r) id_ then spread r p else r)
                  (getKey cur key) in
  setKey cur key rows.

Definition removeRow (type id_ : string) (cur : database) : database :=
  let key := if String.eqb type "invoice" then "invoices" else "expenses" in
  setKey cur key (filter (fun r => negb (String.eqb (id r) id_))
                         (getKey cur key)).

(** The row actions of the tables and of the two buttons. *)
Inductive rowAction :=
| AddInvoice (rowId invNo logId now : string) (today : isodate)
| AddExpense (rowId logId now : string) (today : isodate)
| UpdateRow (type id_ : string) (p : patch)
| RemoveRow (type id_ : string).

Definition perform (user : option string) (a : rowAction) (cur : database)
  : database :=
  match a with
  | AddInvoice rowId invNo logId now today =>
      addInvoice user rowId invNo logId now today cur
  | AddExpense rowId logId now today =>
      addExpense user rowId logId now today cur
  | UpdateRow type id_ p => updateRow type id_ p cur
  | RemoveRow type id_ => removeRow type id_ cur
  end.

(** ** The words of the specification

    Sums, the two-party policy and the filter as the specification
    phrases them, to be compared with the functions above. *)

Fixpoint sumQ (l : list Q) : Q :=
  match l with
  | [] => 0
  | x :: l' => x + sumQ l'
  end.

Inductive kind := Percent | Fixed.

(** Whatever is not tagged 'percent' is applied as a fixed amount. *)
Definition kindOf (a : adjustment) : kind :=
  if String.eqb (type a) "percent" then Percent else Fixed.

(** [applyAdjustments]: the accumulator starts at the base amount and
    runs through the list from the left. *)
Fixpoint applyAdjustments (acc : Q) (l : list adjustment) : Q :=
  match l with
  | [] => acc
  | a :: l' =>
      applyAdjustments
        (match kindOf a with
         | Percent => acc * (1 + value a / 100)
         | Fixed => acc + value a
         end) l'
  end.

Inductive txKind := Income | Expense.

Definition responsibleParty (k : txKind) (r : row) : option string :=
  match k with
  | Income => createdBy r
  | Expense => paidBy r
  end.

Definition inRange (now : jsDate) (p : string) (r : row) : Prop :=
  iso_leb (isoOf (fst (dateRangeFor now p))) (date r) = true
  /\ iso_leb (date r) (todayISO now) = true.

(** The filter as described: the counterparty is matched on income only,
    the responsible party on both kinds. *)
Definition passes_described (k : txKind) (flt : filters) (now : jsDate)
  (r : row) : Prop :=
  inRange now (period flt) r
  /\ (flt_clientId flt = "all" \/ k = Expense
      \/ clientId r = Some (flt_clientId flt))
  /\ (creator flt = "all" \/ responsibleParty k r = Some (creator flt)).

(** The filter as written: either match is skipped on a row that lacks
    (or has empty) the property, and the party looked at is [createdBy]. *)
Definition passes_written (flt : filters) (now : jsDate) (r : row) : Prop :=
  inRange now (period flt) r
  /\ (truthy_str (clientId r) = false \/ flt_clientId flt = "all"
      \/ clientId r = Some (flt_clientId flt))
  /\ (truthy_str (createdBy r) = false \/ creator flt = "all"
      \/ createdBy r = Some (creator flt)).

Definition shareOf (user : option string) (r : row) : Q :=
  if strict_eq user "Debi" then debiUSD (splitUsd r) else bochaUSD (splitUsd r).

(** A month's bucket: the rows of a list that pass the filter and fall
    in month [k]. *)
Definition inBucket (flt : filters) (now : jsDate) (k : ym) (r : row) : bool :=
  matchesFilters flt now r && ym_eqb (slice7 (date r)) k.

Definition bucketNet (flt : filters) (now : jsDate) (k : ym) (l : list row)
  : Q :=
  sumQ (map netUsdOf (filter (inBucket flt now k) l)).

(** One turn of the two [forEach] loops of [monthly], with the amount
    that is added as a parameter. *)
Definition visitRow (flt : filters) (now : jsDate) (f : row -> Q)
  (m : jsMap) (r : row) : jsMap :=
  if matchesFilters flt now r then add m (date r) (f r) else m.

(** The summary totals as described: over the invoices that pass the
    filter. *)
Definition totals_described (db : database) (flt : filters) (now : jsDate)
  (user : option string) : totalsT :=
  let rows := filter (matchesFilters flt now) (invoices db) in
  let income := sumQ (map (fun r => Qmax 0 (netUsdOf r)) rows) in
  let yours := sumQ (map (shareOf user) rows) in
  {| incomeUSD := income; yourShare := yours;
     partnerShare := income - yours |}.

(** The collection an action on rows of the given type is aimed at, and
    the other one. *)
Definition targeted (type : string) (db : database) : list row :=
  if String.eqb type "invoice" then invoices db else expenses db.

Definition untargeted (type : string) (db : database) : list row :=
  if String.eqb type "invoice" then expenses db else invoices db.

(** A property that the patch names takes the patch's value, one that it
    does not name keeps its own. *)
Definition keeps {A : Type} (named : option A) (old new : A) : Prop :=
  match named with
  | Some v => new = v
  | None => new = old
  end.

Definition keeps_opt {A : Type} (named : option A) (old new : option A)
  : Prop :=
  match named with
  | Some v => new = Some v
  | None => new = old
  end.

Definition patchedBy (p : patch) (r r' : row) : Prop :=
  keeps (p_id p) (id r) (id r')
  /\ keeps (p_date p) (date r) (date r')
  /\ keeps_opt (p_clientId p) (clientId r) (clientId r')
  /\ keeps_opt (p_invoiceNo p) (invoiceNo r) (invoiceNo r')
  /\ keeps_opt (p_description p) (description r) (description r')
  /\ keeps (p_currency p) (currency r) (currency r')
  /\ keeps (p_amount p) (amount r) (amount r')
  /\ keeps_opt (p_fxRate p) (fxRate r) (fxRate r')
  /\ keeps_opt (p_createdBy p) (createdBy r) (createdBy r')
  /\ keeps_opt (p_paidBy p) (paidBy r) (paidBy r')
  /\ keeps (p_adjustments p) (adjustments r) (adjustments r')
  /\ keeps (p_split p) (split r) (split r')
  /\ keeps_opt (p_notes p) (notes r) (notes r').

(** ** Sample rows and documents *)

Definition percentAdj (v : Q) : adjustment :=
  {| adj_id := "a"; label := "Adj"; type := "percent"; value := v |}.

Definition fixedAdj (v : Q) : adjustment :=
  {| adj_id := "a"; label := "Adj"; type := "fixed"; value := v |}.

Definition half : splitSpec :=
  {| mode := "percent"; debi := Some 50; bocha := Some 50 |}.

(** An invoice in USD *)
Definition usdInvoice (rid : string) (d : isodate) (by_ : string) (base : Q)
  (adjs : list adjustment) (s : splitSpec) : row :=
  {| id := rid; date := d; clientId := Some "c-lions";
     invoiceNo := Some "INV-1001"; description := None; currency := "USD";
     amount := base; fxRate := Some 0; createdBy := Some by_; paidBy := None;
     adjustments := adjs; split := s; notes := Some "" |}.

(** An expense in USD *)
Definition usdExpense (rid : string) (d : isodate) (by_ : string) (base : Q)
  (adjs : list adjustment) (s : splitSpec) : row :=
  {| id := rid; date := d; clientId := None; invoiceNo := None;
     description := Some "Accountant retainer"; currency := "USD";
     amount := base; fxRate := Some 0; createdBy := None; paidBy := Some by_;
     adjustments := adjs; split := s; notes := None |}.

Definition day0 : isodate := {| year := 2026; month := 11; day := 2 |}.

(** 2 November 2026, noon *)
Definition now0 : jsDate :=
  {| fullYear := 2026; monthIdx := 10; dayOfMonth := 2;
     msOfDay := 43200000 |}.

(** 15 March 2026, noon *)
Definition nowMarch : jsDate :=
  {| fullYear := 2026; monthIdx := 2; dayOfMonth := 15;
     msOfDay := 43200000 |}.

Definition usdRow (base : Q) (adjs : list adjustment) : row :=
  usdInvoice "r" day0 "Debi" base adjs half.

(** The peso row of [seed]: 900k ARS at 1000 ARS per USD *)
Definition pesoRow : row :=
  {| id := "r2"; date := day0; clientId := Some "c-tgi";
     invoiceNo := Some "INV-1002"; description := None; currency := "ARS";
     amount := 900000; fxRate := Some 1000; createdBy := Some "Bocha";
     paidBy := None; adjustments := []; split := half;
     notes := Some "Peso example" |}.

Definition pesoRowNoRate (fx : option Q) : row :=
  {| id := "r2"; date := day0; clientId := Some "c-tgi";
     invoiceNo := Some "INV-1002"; description := None; currency := "ARS";
     amount := 900000; fxRate := fx; createdBy := Some "Bocha";
     paidBy := None; adjustments := []; split := half;
     notes := Some "Peso example" |}.

Definition emptyMeta : metaT :=
  {| members := ["Debi"; "Bocha"];
     clients := [ {| client_id := "c-lions"; name := "Lions" |} ];
     logoDataUrl := None |}.

Definition docOf (inv exp : list row) : database :=
  {| meta := emptyMeta; settings := {| settings_period := "6m" |};
     invoices := inv; expenses := exp; changelog := [] |}.

Definition allFilters (p : string) : filters :=
  {| period := p; flt_clientId := "all"; creator := "all" |}.

(** An invoice of January 2020, far outside the last six months of
    [now0], and an expense of today paid by Debi. *)
Definition oldInvoice : row :=
  usdInvoice "old" {| year := 2020; month := 1; day := 15 |} "Debi" 100 [] half.

Definition todayExpense : row :=
  usdExpense "e1" day0 "Debi" 200 [] half.

Definition bochaOnly : filters :=
  {| period := "6m"; flt_clientId := "all"; creator := "Bocha" |}.

(** The patches the table cells send *)
Definition adjustmentsPatch (l : list adjustment) : patch :=
  {| p_id := None; p_date := None; p_clientId := None; p_invoiceNo := None;
     p_description := None; p_currency := None; p_amount := None;
     p_fxRate := None; p_createdBy := None; p_paidBy := None;
     p_adjustments := Some l; p_split := None; p_notes := None |}.

Definition amountPatch (a : Q) : patch :=
  {| p_id := None; p_date := None; p_clientId := None; p_invoiceNo := None;
     p_description := None; p_currency := None; p_amount := Some a;
     p_fxRate := None; p_createdBy := None; p_paidBy := None;
     p_adjustments := None; p_split := None; p_notes := None |}.

(** Rows for the split: 30 and 70 as amounts, 40 and 60 as percentages,
    and a split that names neither share. *)
Definition amountRow (base : Q) : row :=
  usdInvoice "r" day0 "Debi" base []
    {| mode := "amount"; debi := Some 30; bocha := Some 70 |}.

Definition percentRow (base : Q) : row :=
  usdInvoice "r" day0 "Debi" base []
    {| mode := "percent"; debi := Some 40; bocha := Some 60 |}.


(** A document for the chart: two invoices of November 2026, one of
    October 2026, one of January 2020, and an expense of November 2026. *)
Definition octInvoice : row :=
  usdInvoice "oct" {| year := 2026; month := 10; day := 20 |} "Bocha" 300 []
    half.

Definition chartDoc : database :=
  docOf [usdRow 1000 []; octInvoice; pesoRow; oldInvoice] [todayExpense].

(** ** Further parts of the application *)

(** The rows that [addInvoice] and [addExpense] put in front. *)
Definition newInvoice (user : option string) (rowId invNo : string)
  (today : isodate) (cur : database) : row :=
  {| id := rowId; date := today; clientId := Some (curClientId cur);
     invoiceNo := Some ("INV-" ++ invNo); description := None;
     currency := "USD"; amount := 0; fxRate := Some 0;
     createdBy := Some (or_str user "Debi"); paidBy := None;
     adjustments := [];
     split := {| mode := "percent"; debi := Some 50; bocha := Some 50 |};
     notes := Some "" |}.

Definition newExpense (user : option string) (rowId : string)
  (today : isodate) : row :=
  {| id := rowId; date := today; clientId := None; invoiceNo := None;
     description := Some ""; currency := "USD"; amount := 0;
     fxRate := Some 0; createdBy := None;
     paidBy := Some (or_str user "Debi"); adjustments := [];
     split := {| mode := "percent"; debi := Some 50; bocha := Some 50 |};
     notes := None |}.

(** A run of row actions, each handed to [setDb] in turn. *)
Definition run (user : option string) (acts : list rowAction)
  (cur : database) : database :=
  fold_left (fun db a => perform user a db) acts cur.

Definition isAdd (a : rowAction) : bool :=
  match a with
  | AddInvoice _ _ _ _ _ => true
  | AddExpense _ _ _ _ => true
  | _ => false
  end.

(** [ClientName]: the name shown for a client id *)
Definition ClientName (id_ : string) (db : database) : string :=
  or_str (match find (fun c => String.eqb (client_id c) id_)
                     (clients (meta db)) with
          | Some c => Some (name c)
          | None => None
          end) "—".

(** A patch that names none of the properties the amounts are computed
    from. *)
Definition descriptive (p : patch) : Prop :=
  p_currency p = None /\ p_amount p = None /\ p_fxRate p = None
  /\ p_createdBy p = None /\ p_paidBy p = None /\ p_adjustments p = None
  /\ p_split p = None.

Definition notesPatch (s : string) : patch :=
  {| p_id := None; p_date := None; p_clientId := None; p_invoiceNo := None;
     p_description := None; p_currency := None; p_amount := None;
     p_fxRate := None; p_createdBy := None; p_paidBy := None;
     p_adjustments := None; p_split := None; p_notes := Some s |}.

(** A day of the calendar. *)
Definition calendarDate (d : isodate) : Prop :=
  (1 <= month d <= 12 /\ 1 <= day d <= daysInMonth (year d) (month d - 1))%Z.

(** ** The amounts in binary64

    The numbers of the program are IEEE 754 doubles.  [Double] repeats
    the way from a row to the debt balance on them: the same functions,
    with the additions, products and quotients of binary64. *)

Module Double.

(** [x ? a : b] on a number: 0, -0 and NaN are falsy *)
Definition truthy_num (x : option float) : bool :=
  match x with
  | Some q => negb (PrimFloat.is_zero q || PrimFloat.is_nan q)
  | None => false
  end.

(** [x ?? d] *)
Definition nullish (x : option float) (d : float) : float :=
  match x with
  | Some q => q
  | None => d
  end.

Record adjustment := mkAdj {
  adj_id : string;
  label : string;
  type : string;
  value : float
}.

Record splitSpec := mkSplit {
  mode : string;
  debi : option float;
  bocha : option float
}.

Record row := mkRow {
  id : string;
  date : isodate;
  clientId : option string;
  invoiceNo : option string;
  description : option string;
  currency : string;
  amount : float;
  fxRate : option float;
  createdBy : option string;
  paidBy : option string;
  adjustments : list adjustment;
  split : splitSpec;
  notes : option string
}.

Record database := mkDb {
  meta : metaT;
  settings : settingsT;
  invoices : list row;
  expenses : list row;
  changelog : list logEntry
}.

Definition usdOf (r : row) : float :=
  if String.eqb (currency r) "USD" then amount r
  else match fxRate r with
       | Some fx => if truthy_num (Some fx) then (amount r / fx)%float
                    else 0%float
       | None => 0%float
       end.

Definition adjStep (acc : float) (adj : adjustment) : float :=
  if String.eqb (type adj) "percent"
  then (acc * (1 + value adj / 100))%float
  else (acc + value adj)%float.

Definition netUsdOf (r : row) : float :=
  fold_left adjStep (adjustments r) (usdOf r).

Record shares := mkShares {
  debiUSD : float;
  bochaUSD : float
}.

Definition splitUsd (r : row) : shares :=
  let net := netUsdOf r in
  if String.eqb (mode (split r)) "amount" then
    let debi := nullish (debi (split r)) 0%float in
    let bocha := nullish (bocha (split r)) 0%float in
    {| debiUSD := debi; bochaUSD := bocha |}
  else
    let d := (nullish (debi (split r)) 0 / 100)%float in
    let b := (nullish (bocha (split r)) 0 / 100)%float in
    {| debiUSD := (net * d)%float; bochaUSD := (net * b)%float |}.

Definition debtDeltaIncome (inv : row) : float :=
  let s := splitUsd inv in
  if strict_eq (createdBy inv) "Debi" then (- bochaUSD s)%float
  else debiUSD s.

Definition debtDeltaExpense (exp : row) : float :=
  let s := splitUsd exp in
  if strict_eq (paidBy exp) "Debi" then bochaUSD s
  else (- debiUSD s)%float.

Definition debt (db : database) : float :=
  let inc := fold_left (fun acc r => (acc + debtDeltaIncome r)%float)
                       (invoices db) 0%float in
  let exp := fold_left (fun acc r => (acc + debtDeltaExpense r)%float)
                       (expenses db) 0%float in
  (inc + exp)%float.

(** The sum of a list of doubles, added one after the other from 0. *)
Definition sumLeft (l : list float) : float :=
  fold_left PrimFloat.add l 0%float.

(** An invoice in USD created by Bocha, split 50/50 *)
Definition usdInvoice (rid : string) (a : float) : row :=
  {| id := rid; date := day0; clientId := Some "c-lions";
     invoiceNo := Some "INV-1001"; description := None; currency := "USD";
     amount := a; fxRate := Some 0%float; createdBy := Some "Bocha";
     paidBy := None; adjustments := [];
     split := {| mode := "percent"; debi := Some 50%float;
                 bocha := Some 50%float |};
     notes := Some "" |}.

Definition docOf (inv exp : list row) : database :=
  {| meta := emptyMeta; settings := {| settings_period := "6m" |};
     invoices := inv; expenses := exp; changelog := [] |}.

(** Three invoices of 0.2, 0.4 and 0.6 USD (the doubles that these
    decimals denote), whose deltas are 0.1, 0.2 and 0.3 *)
Definition cents : list row :=
  [ usdInvoice "a" 0x1.999999999999ap-3%float;
    usdInvoice "b" 0x1.999999999999ap-2%float;
    usdInvoice "c" 0x1.3333333333333p-1%float ].

End Double.

(** * Properties *)

(** ** Strings and optional values *)

Lemma strict_eq_true (o : option string) (s : string) :
  strict_eq o s = true <-> o = Some s.
Proof.
  unfold strict_eq, strict_neq. destruct o as [x|]; simpl.
  - rewrite negb_involutive, String.eqb_eq. split; congruence.
  - split; discriminate.
Qed.

Lemma strict_eq_some (s : string) : strict_eq (Some s) s = true.
Proof. now apply strict_eq_true. Qed.

Lemma strict_eq_other (x s : string) : x <> s -> strict_eq (Some x) s = false.
Proof.
  intros H. destruct (strict_eq (Some x) s) eqn:E; [|reflexivity].
  apply strict_eq_true in E. congruence.
Qed.

Lemma strict_neq_false (o : option string) (s : string) :
  strict_neq o s = false <-> o = Some s.
Proof.
  rewrite <- strict_eq_true. unfold strict_eq.
  destruct (strict_neq o s); simpl; split; congruence.
Qed.

Lemma truthy_num_zero (fx : Q) : fx == 0 -> truthy_num (Some fx) = false.
Proof.
  intros H. simpl. apply Qeq_bool_iff in H. now rewrite H.
Qed.

Lemma truthy_num_nonzero (fx : Q) : ~ fx == 0 -> truthy_num (Some fx) = true.
Proof.
  intros H. simpl. destruct (Qeq_bool fx 0) eqn:E; [|reflexivity].
  apply Qeq_bool_iff in E. contradiction.
Qed.

(** ** The financial core *)

(** C1. The delta to the balance "Bocha owes Debi": an invoice created
    by Debi subtracts Bocha's share and one created by Bocha adds Debi's
    share; an expense paid by Debi adds Bocha's share and one paid by
    Bocha subtracts Debi's share.  The shares are those of [splitUsd]. *)
Theorem debtDelta_policy (r : row) :
  (createdBy r = Some "Debi" ->
     debtDeltaIncome r = - bochaUSD (splitUsd r))
  /\ (createdBy r = Some "Bocha" ->
     debtDeltaIncome r = debiUSD (splitUsd r))
  /\ (paidBy r = Some "Debi" ->
     debtDeltaExpense r = bochaUSD (splitUsd r))
  /\ (paidBy r = Some "Bocha" ->
     debtDeltaExpense r = - debiUSD (splitUsd r)).
Proof.
  unfold debtDeltaIncome, debtDeltaExpense.
  repeat split; intros H; rewrite H.
  - now rewrite strict_eq_some.
  - now rewrite strict_eq_other by discriminate.
  - now rewrite strict_eq_some.
  - now rewrite strict_eq_other by discriminate.
Qed.

Lemma debtDelta_policy_witness :
  debtDeltaIncome (usdRow 1000 []) = - bochaUSD (splitUsd (usdRow 1000 []))
  /\ debtDeltaIncome pesoRow = debiUSD (splitUsd pesoRow)
  /\ debtDeltaExpense todayExpense = bochaUSD (splitUsd todayExpense)
  /\ debtDeltaExpense (usdExpense "e2" day0 "Bocha" 200 [] half)
     = - debiUSD (splitUsd (usdExpense "e2" day0 "Bocha" 200 [] half)).
Proof.
  split; [|split; [|split]].
  - apply (proj1 (debtDelta_policy (usdRow 1000 []))). reflexivity.
  - apply (proj1 (proj2 (debtDelta_policy pesoRow))). reflexivity.
  - apply (proj1 (proj2 (proj2 (debtDelta_policy todayExpense)))).
    reflexivity.
  - apply (proj2 (proj2 (proj2
             (debtDelta_policy (usdExpense "e2" day0 "Bocha" 200 [] half))))).
    reflexivity.
Defined.

(** The debt scenario: an invoice of net 1000 created by Debi and split
    50/50 moves the balance by -500, an expense of net 200 paid by Debi
    by +100. *)
Example debt_scenario :
  debtDeltaIncome (usdRow 1000 []) == -500
  /\ debtDeltaExpense todayExpense == 100
  /\ debt (docOf [usdRow 1000 []] [todayExpense]) == -400.
Proof. split; [|split]; vm_compute; reflexivity. Qed.

(** C2. The USD amount of a row is its amount when the currency is USD;
    otherwise the amount divided by the rate when the rate is not zero;
    and 0 when the rate is zero or missing.  The result is thus always
    the amount, 0, or a quotient by a rate that is not zero: no division
    by zero takes place.  900000 ARS at 1000 ARS per USD are 900 USD. *)
Theorem usdOf_normalizes (r : row) :
  (currency r = "USD" -> usdOf r = amount r)
  /\ (currency r <> "USD" ->
      forall fx, fxRate r = Some fx -> ~ fx == 0 -> usdOf r = amount r / fx)
  /\ (currency r <> "USD" ->
      (fxRate r = None \/ exists fx, fxRate r = Some fx /\ fx == 0) ->
      usdOf r = 0)
  /\ (usdOf r = amount r \/ usdOf r = 0
      \/ exists fx, fxRate r = Some fx /\ ~ fx == 0
                    /\ usdOf r = amount r / fx)
  /\ usdOf pesoRow == 900.
Proof.
  unfold usdOf at 1 2 3 4 5 6. split; [|split; [|split; [|split]]].
  - intros H. rewrite H. reflexivity.
  - intros H fx Hfx Hnz. apply String.eqb_neq in H. rewrite H, Hfx.
    now rewrite truthy_num_nonzero.
  - intros H Hfx. apply String.eqb_neq in H. rewrite H.
    destruct Hfx as [Hfx | [fx [Hfx Hz]]]; rewrite Hfx; [reflexivity|].
    now rewrite truthy_num_zero.
  - destruct (String.eqb (currency r) "USD"); [now left|].
    destruct (fxRate r) as [fx|]; [|right; now left].
    destruct (truthy_num (Some fx)) eqn:E; [|right; now left].
    right. right. exists fx. split; [reflexivity|]. split; [|reflexivity].
    intros Hz. apply truthy_num_zero in Hz. congruence.
  - vm_compute. reflexivity.
Qed.

Lemma usdOf_normalizes_witness :
  usdOf (usdRow 1200 []) = 1200
  /\ usdOf pesoRow = 900000 / 1000
  /\ usdOf (pesoRowNoRate None) = 0
  /\ usdOf (pesoRowNoRate (Some 0)) = 0.
Proof.
  split; [|split; [|split]].
  - apply (proj1 (usdOf_normalizes (usdRow 1200 []))). reflexivity.
  - apply (proj1 (proj2 (usdOf_normalizes pesoRow)));
      [ discriminate | reflexivity | discriminate ].
  - apply (proj1 (proj2 (proj2 (usdOf_normalizes (pesoRowNoRate None)))));
      [ discriminate | left; reflexivity ].
  - apply (proj1 (proj2 (proj2 (usdOf_normalizes (pesoRowNoRate (Some 0))))));
      [ discriminate | right; exists 0; split; reflexivity ].
Defined.

Lemma fold_adjStep (l : list adjustment) (acc : Q) :
  fold_left adjStep l acc = applyAdjustments acc l.
Proof.
  revert acc. induction l as [|a l IH]; intros acc; simpl.
  - reflexivity.
  - rewrite IH. unfold adjStep, kindOf.
    destruct (String.eqb (type a) "percent"); reflexivity.
Qed.

(** C3. The net amount is the left fold of the adjustments over the base
    amount, in stored order: a percent adjustment multiplies the running
    total by (1 + value/100), a fixed one adds its value; an adjustment
    stored last is applied last.  The empty list leaves the base as it
    is; 100 with [percent -10, fixed +5] is 95, with [fixed +5,
    percent -10] it is 94.5. *)
Theorem netUsdOf_fold :
  (forall r, netUsdOf r = applyAdjustments (usdOf r) (adjustments r))
  /\ (forall r a,
        netUsdOf (spread r (adjustmentsPatch (adjustments r ++ [a])))
        = match kindOf a with
          | Percent => netUsdOf r * (1 + value a / 100)
          | Fixed => netUsdOf r + value a
          end)
  /\ (forall base, netUsdOf (usdRow base []) = base)
  /\ netUsdOf (usdRow 100 [percentAdj (-10); fixedAdj 5]) == 95
  /\ netUsdOf (usdRow 100 [fixedAdj 5; percentAdj (-10)]) == 94.5.
Proof.
  split; [|split; [|split; [|split]]].
  - intros r. apply fold_adjStep.
  - intros r a. unfold netUsdOf. simpl adjustments.
    rewrite fold_left_app. simpl.
    unfold adjStep at 1, kindOf.
    destruct (String.eqb (type a) "percent"); reflexivity.
  - intros base. reflexivity.
  - vm_compute. reflexivity.
  - vm_compute. reflexivity.
Qed.

(** The same two adjustments in the two orders give different nets. *)
Example netUsdOf_order_matters :
  ~ netUsdOf (usdRow 100 [percentAdj (-10); fixedAdj 5])
    == netUsdOf (usdRow 100 [fixedAdj 5; percentAdj (-10)]).
Proof. vm_compute. discriminate. Qed.



(** The two examples of the split: 30 and 70 as amounts stay 30 and 70,
    40 and 60 percent of 1000 are 400 and 600. *)
Example splitUsd_examples :
  debiUSD (splitUsd (amountRow 1000)) == 30
  /\ bochaUSD (splitUsd (amountRow 1000)) == 70
  /\ debiUSD (splitUsd (percentRow 1000)) == 400
  /\ bochaUSD (splitUsd (percentRow 1000)) == 600.
Proof. split; [|split; [|split]]; vm_compute; reflexivity. Qed.

(** ** Sums over the document *)

Lemma fold_left_sumQ {A : Type} (f : A -> Q) (l : list A) (acc : Q) :
  fold_left (fun a r => a + f r) l acc == acc + sumQ (map f l).
Proof.
  revert acc. induction l as [|x l IH]; intros acc; simpl.
  - ring.
  - rewrite IH. ring.
Qed.

Lemma sumQ_Permutation (l l' : list Q) :
  Permutation l l' -> sumQ l == sumQ l'.
Proof.
  induction 1 as [| x l l' _ IH | x y l | l l' l'' _ IH1 _ IH2]; simpl.
  - reflexivity.
  - rewrite IH. reflexivity.
  - ring.
  - rewrite IH1. exact IH2.
Qed.

Lemma debt_sumQ (db : database) :
  debt db == sumQ (map debtDeltaIncome (invoices db))
             + sumQ (map debtDeltaExpense (expenses db)).
Proof.
  unfold debt. rewrite !fold_left_sumQ. ring.
Qed.

Lemma debt_exact_Permutation (db db' : database) :
  Permutation (invoices db) (invoices db') ->
  Permutation (expenses db) (expenses db') ->
  debt db' == debt db.
Proof.
  intros Hi He. rewrite !debt_sumQ.
  rewrite (sumQ_Permutation _ _ (Permutation_map debtDeltaIncome Hi)).
  rewrite (sumQ_Permutation _ _ (Permutation_map debtDeltaExpense He)).
  reflexivity.
Qed.

Lemma fold_left_add_map {A : Type} (f : A -> float) (l : list A)
  (acc : float) :
  fold_left (fun a r => (a + f r)%float) l acc
  = fold_left PrimFloat.add (map f l) acc.
Proof.
  revert acc. induction l as [|x l IH]; intros acc; simpl.
  - reflexivity.
  - apply IH.
Qed.

(** C5, as the code has it. The debt balance is the sum of the deltas of
    all invoices plus the sum of the deltas of all expenses of the
    document, each sum added up from 0 in the order of the list, so that
    a row put at the end of a list is added last.  With exact additions
    the balance is the same for every reordering of the two lists. *)
Theorem debt_in_document_order :
  (forall db : Double.database,
     Double.debt db
     = (Double.sumLeft (map Double.debtDeltaIncome (Double.invoices db))
        + Double.sumLeft (map Double.debtDeltaExpense (Double.expenses db)))
       %float)
  /\ (forall (l : list Double.row) (r : Double.row),
        Double.sumLeft (map Double.debtDeltaIncome (l ++ [r]))
        = (Double.sumLeft (map Double.debtDeltaIncome l)
           + Double.debtDeltaIncome r)%float)
  /\ (forall db : database,
        debt db == sumQ (map debtDeltaIncome (invoices db))
                   + sumQ (map debtDeltaExpense (expenses db)))
  /\ (forall db db' : database,
        Permutation (invoices db) (invoices db') ->
        Permutation (expenses db) (expenses db') ->
        debt db' == debt db).
Proof.
  split; [|split; [|split]].
  - intros db. unfold Double.debt, Double.sumLeft.
    rewrite (fold_left_add_map Double.debtDeltaIncome).
    rewrite (fold_left_add_map Double.debtDeltaExpense). reflexivity.
  - intros l r. unfold Double.sumLeft.
    rewrite map_app, fold_left_app. reflexivity.
  - apply debt_sumQ.
  - apply debt_exact_Permutation.
Qed.

Lemma debt_in_document_order_witness :
  debt (docOf [pesoRow; usdRow 1000 []] [todayExpense])
  == debt (docOf [usdRow 1000 []; pesoRow] [todayExpense]).
Proof.
  apply (proj2 (proj2 (proj2 debt_in_document_order))
           (docOf [usdRow 1000 []; pesoRow] [todayExpense])).
  - simpl. apply perm_swap.
  - simpl. apply Permutation_refl.
Defined.

(** In binary64 the balance of three invoices with the deltas 0.1, 0.2
    and 0.3 is 0.6000000000000001, and the balance of the same invoices
    in the opposite order is 0.6. *)
Lemma debt_order_dependent :
  Permutation (Double.invoices (Double.docOf Double.cents []))
              (Double.invoices (Double.docOf (rev Double.cents) []))
  /\ Permutation (Double.expenses (Double.docOf Double.cents []))
                 (Double.expenses (Double.docOf (rev Double.cents) []))
  /\ Double.debt (Double.docOf Double.cents []) = 0x1.3333333333334p-1%float
  /\ Double.debt (Double.docOf (rev Double.cents) [])
     = 0x1.3333333333333p-1%float
  /\ Double.debt (Double.docOf (rev Double.cents) [])
     <> Double.debt (Double.docOf Double.cents []).
Proof.
  split; [|split; [|split; [|split]]].
  - apply Permutation_rev.
  - apply Permutation_refl.
  - vm_compute. reflexivity.
  - vm_compute. reflexivity.
  - intros H.
    assert (E : PrimFloat.eqb (Double.debt (Double.docOf (rev Double.cents) []))
                              (Double.debt (Double.docOf Double.cents []))
                = PrimFloat.eqb (Double.debt (Double.docOf Double.cents []))
                                (Double.debt (Double.docOf Double.cents [])))
      by (rewrite H; reflexivity).
    vm_compute in E. discriminate E.
Qed.

(** ** Summary totals *)

(** C6, as the code has it. The totals are taken over all invoices of the
    document, whatever the filter: total income is the sum of the nets
    clamped at 0, the user's share is the sum of that user's split
    output, and the partner's share is the difference of the two. *)
Theorem totals_all_invoices (db : database) (user : option string) :
  incomeUSD (totals db user)
  == sumQ (map (fun r => Qmax 0 (netUsdOf r)) (invoices db))
  /\ yourShare (totals db user) == sumQ (map (shareOf user) (invoices db))
  /\ partnerShare (totals db user)
     = incomeUSD (totals db user) - yourShare (totals db user).
Proof.
  split; [|split].
  - unfold totals; simpl. rewrite fold_left_sumQ. ring.
  - unfold totals; simpl.
    rewrite (fold_left_sumQ (shareOf user)). ring.
  - reflexivity.
Qed.

(** An invoice of January 2020 does not pass the last-six-months filter
    of November 2026, and still counts in all three totals: they are not
    those of the filtered invoices. *)
Lemma totals_ignore_filter :
  matchesFilters (allFilters "6m") now0 oldInvoice = false
  /\ ~ incomeUSD (totals (docOf [oldInvoice] []) (Some "Debi"))
       == incomeUSD (totals_described (docOf [oldInvoice] [])
                       (allFilters "6m") now0 (Some "Debi"))
  /\ ~ yourShare (totals (docOf [oldInvoice] []) (Some "Debi"))
       == yourShare (totals_described (docOf [oldInvoice] [])
                       (allFilters "6m") now0 (Some "Debi"))
  /\ ~ partnerShare (totals (docOf [oldInvoice] []) (Some "Debi"))
       == partnerShare (totals_described (docOf [oldInvoice] [])
                          (allFilters "6m") now0 (Some "Debi")).
Proof.
  split; [|split; [|split]]; vm_compute; try reflexivity; discriminate.
Qed.

(** ** Date ranges and the filter *)

Section DateFacts.
Local Open Scope Z_scope.

Lemma daysInMonth_ge (y m : Z) : 28 <= daysInMonth y m.
Proof.
  unfold daysInMonth.
  destruct (m =? 1); [destruct (leapYear y); lia|].
  destruct ((m =? 3) || (m =? 5) || (m =? 8) || (m =? 10))%bool; lia.
Qed.

Lemma makeDate_first (y m ms : Z) :
  makeDate y m 1 ms
  = {| fullYear := y + m / 12; monthIdx := m mod 12; dayOfMonth := 1;
       msOfDay := ms |}.
Proof.
  unfold makeDate.
  pose proof (daysInMonth_ge (y + m / 12) (m mod 12)) as H.
  destruct (1 >? daysInMonth (y + m / 12) (m mod 12)) eqn:E;
    [|reflexivity].
  apply Z.gtb_lt in E. lia.
Qed.

Lemma lastMonths_start (n : Z) (now : jsDate) :
  0 <= monthIdx now < 12 ->
  fst (lastMonths n now) = firstOfMonthBefore now (n - 1).
Proof.
  intros Hm. unfold lastMonths, setDate, setMonth. simpl fst.
  rewrite makeDate_first. simpl.
  rewrite makeDate_first. unfold isoOf, firstOfMonthBefore. simpl.
  rewrite (Z.div_small (monthIdx now) 12), (Z.mod_small (monthIdx now) 12)
    by lia.
  replace (fullYear now * 12 + monthIdx now - (n - 1))
    with (monthIdx now - (n - 1) + fullYear now * 12) by ring.
  rewrite Z.div_add, Z.mod_add by lia.
  f_equal; lia.
Qed.

Lemma dateRangeFor_end (now : jsDate) (p : string) :
  snd (dateRangeFor now p) = now.
Proof.
  unfold dateRangeFor. destruct (String.eqb p "all"); reflexivity.
Qed.

Lemma makeDate_ms (y m d ms : Z) : msOfDay (makeDate y m d ms) = ms.
Proof.
  unfold makeDate.
  destruct (d >? daysInMonth (y + m / 12) (m mod 12)); reflexivity.
Qed.

Lemma dateRangeFor_start_midnight (now : jsDate) (p : string) :
  msOfDay (fst (dateRangeFor now p)) = 0.
Proof.
  unfold dateRangeFor.
  destruct (String.eqb p "all"); [reflexivity|]. simpl fst.
  destruct (String.eqb p "ytd"), (String.eqb p "12m");
    unfold setFullYear, setDate, setMonth;
    rewrite ?makeDate_ms; reflexivity.
Qed.

Lemma not_before_start (s : jsDate) (d : isodate) :
  msOfDay s = 0 ->
  date_ltb (newDate d) s = false <-> iso_leb (isoOf s) d = true.
Proof.
  intros Hs. unfold date_ltb, iso_leb, newDate, isoOf. simpl. rewrite Hs.
  destruct (Z.ltb_spec (year d) (fullYear s)),
           (Z.eqb_spec (year d) (fullYear s)),
           (Z.ltb_spec (month d - 1) (monthIdx s)),
           (Z.eqb_spec (month d - 1) (monthIdx s)),
           (Z.ltb_spec (day d) (dayOfMonth s)),
           (Z.eqb_spec (day d) (dayOfMonth s)),
           (Z.ltb_spec (fullYear s) (year d)),
           (Z.eqb_spec (fullYear s) (year d)),
           (Z.ltb_spec (monthIdx s + 1) (month d)),
           (Z.eqb_spec (monthIdx s + 1) (month d)),
           (Z.leb_spec (dayOfMonth s) (day d));
    simpl; split; intros; try reflexivity; try discriminate; lia.
Qed.

Lemma not_after_now (now : jsDate) (d : isodate) :
  0 <= msOfDay now ->
  date_ltb now (newDate d) = false <-> iso_leb d (todayISO now) = true.
Proof.
  intros Hs. unfold date_ltb, iso_leb, newDate, todayISO, isoOf. simpl.
  destruct (Z.ltb_spec (fullYear now) (year d)),
           (Z.eqb_spec (fullYear now) (year d)),
           (Z.ltb_spec (monthIdx now) (month d - 1)),
           (Z.eqb_spec (monthIdx now) (month d - 1)),
           (Z.ltb_spec (dayOfMonth now) (day d)),
           (Z.eqb_spec (dayOfMonth now) (day d)),
           (Z.ltb_spec (msOfDay now) 0),
           (Z.ltb_spec (year d) (fullYear now)),
           (Z.eqb_spec (year d) (fullYear now)),
           (Z.ltb_spec (month d) (monthIdx now + 1)),
           (Z.eqb_spec (month d) (monthIdx now + 1)),
           (Z.leb_spec (day d) (dayOfMonth now));
    simpl; split; intros; try reflexivity; try discriminate; lia.
Qed.

Lemma dateRangeFor_6m (now : jsDate) :
  0 <= monthIdx now < 12 ->
  dateRangeFor now "6m" = (newDate (firstOfMonthBefore now 5), now).
Proof.
  intros Hm. unfold dateRangeFor. simpl String.eqb. cbv iota.
  rewrite lastMonths_start by assumption. reflexivity.
Qed.

Lemma dateRangeFor_12m (now : jsDate) :
  5 <= monthIdx now < 12 ->
  dateRangeFor now "12m" = (newDate (firstOfMonthBefore now 11), now).
Proof.
  intros Hm. unfold dateRangeFor. simpl String.eqb. cbv iota.
  rewrite lastMonths_start by lia.
  unfold setMonth, newDate at 1, firstOfMonthBefore at 1. simpl.
  rewrite makeDate_first. unfold newDate, firstOfMonthBefore. simpl.
  replace (fullYear now * 12 + monthIdx now - 5)
    with (monthIdx now - 5 + fullYear now * 12) by ring.
  replace (fullYear now * 12 + monthIdx now - 11)
    with (monthIdx now - 11 + fullYear now * 12) by ring.
  rewrite !Z.div_add, !Z.mod_add by lia.
  rewrite (Z.div_small (monthIdx now - 5) 12) by lia.
  f_equal. f_equal; lia.
Qed.

End DateFacts.

Lemma skip_or_match (o : option string) (f : string) :
  truthy_str o && negb (String.eqb f "all") && strict_neq o f = false
  <-> truthy_str o = false \/ f = "all" \/ o = Some f.
Proof.
  rewrite <- strict_neq_false, <- (String.eqb_eq f "all").
  destruct (truthy_str o), (String.eqb f "all"), (strict_neq o f);
    simpl; intuition congruence.
Qed.

Lemma matchesFilters_true (flt : filters) (now : jsDate) (r : row) :
  (0 <= msOfDay now)%Z ->
  matchesFilters flt now r = true <-> passes_written flt now r.
Proof.
  intros Hms. unfold matchesFilters, passes_written, inRange.
  pose proof (dateRangeFor_end now (period flt)) as He.
  pose proof (dateRangeFor_start_midnight now (period flt)) as Hs.
  destruct (dateRangeFor now (period flt)) as [start end_].
  simpl in He, Hs. subst end_. simpl fst.
  rewrite <- (not_before_start start (date r) Hs).
  rewrite <- (not_after_now now (date r) Hms).
  rewrite <- !skip_or_match.
  destruct (date_ltb (newDate (date r)) start),
           (date_ltb now (newDate (date r))),
           (truthy_str (clientId r)
            && negb (String.eqb (flt_clientId flt) "all")
            && strict_neq (clientId r) (flt_clientId flt)),
           (truthy_str (createdBy r)
            && negb (String.eqb (creator flt) "all")
            && strict_neq (createdBy r) (creator flt));
    simpl; intuition congruence.
Qed.

(** C7, as the code has it, with UTC as the local time zone and for a
    row whose date is a day of the calendar. A row passes the filter iff its date lies in
    the inclusive range from the start of the period to today, and the
    client filter is "all" or equals the row's client or the row has no
    client (an expense), and the creator filter is "all" or equals the
    row's [createdBy] or the row has no [createdBy] (an expense).  For
    the last six months the range starts on the first day of the month
    five months before the current one and ends now; for the last twelve
    months, from June to December, on the first day of the month eleven
    months before the current one. *)
Theorem matchesFilters_written (flt : filters) (now : jsDate) (r : row) :
  validNow now ->
  calendarDate (date r) ->
  (matchesFilters flt now r = true <-> passes_written flt now r)
  /\ dateRangeFor now "6m" = (newDate (firstOfMonthBefore now 5), now)
  /\ ((5 <= monthIdx now)%Z ->
      dateRangeFor now "12m" = (newDate (firstOfMonthBefore now 11), now)).
Proof.
  intros [Hm [Hd Hms]] _. split; [|split].
  - now apply matchesFilters_true.
  - now apply dateRangeFor_6m.
  - intros H5. apply dateRangeFor_12m. lia.
Qed.

Lemma matchesFilters_written_witness :
  validNow now0
  /\ calendarDate (date todayExpense)
  /\ (matchesFilters bochaOnly now0 todayExpense = true
      <-> passes_written bochaOnly now0 todayExpense)
  /\ dateRangeFor now0 "6m" = (newDate (mkDate 2026 6 1), now0)
  /\ dateRangeFor now0 "12m" = (newDate (mkDate 2025 12 1), now0).
Proof.
  assert (Hv : validNow now0) by (unfold validNow; simpl; lia).
  assert (Hc : calendarDate (date todayExpense))
    by (unfold calendarDate; repeat split; vm_compute; discriminate).
  destruct (matchesFilters_written bochaOnly now0 todayExpense Hv Hc)
    as [H1 [H2 H3]].
  split; [exact Hv|]. split; [exact Hc|]. split; [exact H1|].
  split; [exact H2|].
  apply H3. simpl. lia.
Defined.

(** An expense paid by Debi passes the filter "created by Bocha": the
    filter does not look at [paidBy]. *)
Lemma matchesFilters_ignores_paidBy :
  matchesFilters bochaOnly now0 todayExpense = true
  /\ ~ passes_described Expense bochaOnly now0 todayExpense.
Proof.
  split; [reflexivity|].
  intros [_ [_ [H | H]]]; discriminate.
Qed.

(** In March 2026 the range of the last twelve months starts in April
    2024, a year before the month eleven months back. *)
Example dateRangeFor_12m_in_March :
  isoOf (fst (dateRangeFor nowMarch "12m")) = mkDate 2024 4 1
  /\ firstOfMonthBefore nowMarch 11 = mkDate 2025 4 1.
Proof. split; reflexivity. Qed.

(** ** The map of the chart *)

Lemma ym_eqb_eq (a b : ym) : ym_eqb a b = true <-> a = b.
Proof.
  destruct a as [a1 a2], b as [b1 b2]. unfold ym_eqb. simpl.
  rewrite andb_true_iff, !Z.eqb_eq. split.
  - intros [-> ->]. reflexivity.
  - intros H. injection H. auto.
Qed.

Lemma ym_eqb_refl (a : ym) : ym_eqb a a = true.
Proof. now apply ym_eqb_eq. Qed.

Lemma ym_eqb_neq (a b : ym) : ym_eqb a b = false <-> a <> b.
Proof.
  rewrite <- ym_eqb_eq. destruct (ym_eqb a b); split; congruence.
Qed.

Lemma or0_some (v : Q) : or0 (Some v) == v.
Proof.
  simpl. destruct (Qeq_bool v 0) eqn:E; [|reflexivity].
  apply Qeq_bool_iff in E. symmetry. exact E.
Qed.

Lemma map_get_set_same (m : jsMap) (k : ym) (v : Q) :
  map_get (map_set m k v) k = Some v.
Proof.
  induction m as [|[k' v'] m IH]; simpl.
  - now rewrite ym_eqb_refl.
  - destruct (ym_eqb k' k) eqn:E; simpl; rewrite E; [reflexivity | exact IH].
Qed.

Lemma map_get_set_other (m : jsMap) (k k' : ym) (v : Q) :
  k <> k' -> map_get (map_set m k v) k' = map_get m k'.
Proof.
  intros Hne. induction m as [|[k0 v0] m IH]; simpl.
  - apply ym_eqb_neq in Hne. now rewrite Hne.
  - destruct (ym_eqb k0 k) eqn:E; simpl.
    + apply ym_eqb_eq in E. subst k0.
      apply ym_eqb_neq in Hne. now rewrite Hne.
    + destruct (ym_eqb k0 k'); [reflexivity | exact IH].
Qed.

Lemma map_set_keys (m : jsMap) (k k' : ym) (v : Q) :
  In k' (map fst (map_set m k v)) <-> k' = k \/ In k' (map fst m).
Proof.
  induction m as [|[k0 v0] m IH]; simpl.
  - intuition.
  - destruct (ym_eqb k0 k) eqn:E; simpl.
    + apply ym_eqb_eq in E. subst k0. intuition.
    + rewrite IH. intuition.
Qed.

Lemma map_set_NoDup (m : jsMap) (k : ym) (v : Q) :
  NoDup (map fst m) -> NoDup (map fst (map_set m k v)).
Proof.
  induction m as [|[k0 v0] m IH]; simpl; intros H.
  - constructor; [intros [] | constructor].
  - inversion H as [|x l Hnin Hnd]; subst.
    destruct (ym_eqb k0 k) eqn:E; simpl.
    + constructor; assumption.
    + constructor; [|now apply IH].
      rewrite map_set_keys. intros [-> | Hin]; [|contradiction].
      rewrite ym_eqb_refl in E. discriminate.
Qed.

Lemma map_get_In (m : jsMap) (k : ym) (v : Q) :
  NoDup (map fst m) -> In (k, v) m -> map_get m k = Some v.
Proof.
  induction m as [|[k0 v0] m IH]; simpl; intros Hnd Hin; [contradiction|].
  inversion Hnd as [|x l Hnin Hnd']; subst.
  destruct Hin as [Heq | Hin].
  - injection Heq as -> ->. now rewrite ym_eqb_refl.
  - destruct (ym_eqb k0 k) eqn:E.
    + apply ym_eqb_eq in E. subst k0. exfalso. apply Hnin.
      change k with (fst (k, v)). now apply in_map.
    + now apply IH.
Qed.

Section Buckets.

Variable flt : filters.
Variable now : jsDate.
Variable f : row -> Q.

Lemma visit_keys (l : list row) (m : jsMap) (k : ym) :
  In k (map fst (fold_left (visitRow flt now f) l m))
  <-> In k (map fst m) \/ exists r, In r l /\ inBucket flt now k r = true.
Proof.
  revert m. induction l as [|r l IH]; intros m; simpl.
  - split; [auto | intros [H | [r [[] _]]]; exact H].
  - rewrite IH. unfold visitRow, inBucket.
    destruct (matchesFilters flt now r) eqn:Hp.
    + unfold add. rewrite map_set_keys. split.
      * intros [[-> | H] | [r' [Hin Hb]]].
        -- right. exists r. rewrite Hp, ym_eqb_refl. auto.
        -- now left.
        -- right. exists r'. auto.
      * intros [H | [r' [[<- | Hin] Hb]]].
        -- left. now right.
        -- left. left. rewrite Hp in Hb. simpl in Hb.
           apply ym_eqb_eq in Hb. now symmetry.
        -- right. exists r'. auto.
    + split.
      * intros [H | [r' [Hin Hb]]]; [now left|]. right. exists r'. auto.
      * intros [H | [r' [[<- | Hin] Hb]]]; [now left | |].
        -- rewrite Hp in Hb. discriminate.
        -- right. exists r'. auto.
Qed.

Lemma visit_NoDup (l : list row) (m : jsMap) :
  NoDup (map fst m) -> NoDup (map fst (fold_left (visitRow flt now f) l m)).
Proof.
  revert m. induction l as [|r l IH]; intros m H; simpl; [exact H|].
  apply IH. unfold visitRow. destruct (matchesFilters flt now r); [|exact H].
  now apply map_set_NoDup.
Qed.

Lemma visit_value (l : list row) (m : jsMap) (k : ym) :
  or0 (map_get (fold_left (visitRow flt now f) l m) k)
  == or0 (map_get m k) + sumQ (map f (filter (inBucket flt now k) l)).
Proof.
  revert m. induction l as [|r l IH]; intros m; simpl.
  - ring.
  - rewrite IH. unfold visitRow.
    destruct (matchesFilters flt now r) eqn:Hp.
    + assert (Hb : inBucket flt now k r = ym_eqb (slice7 (date r)) k)
        by (unfold inBucket; now rewrite Hp).
      rewrite Hb. unfold add.
      destruct (ym_eqb (slice7 (date r)) k) eqn:E; simpl.
      * apply ym_eqb_eq in E. rewrite E.
        rewrite map_get_set_same, or0_some. ring.
      * apply ym_eqb_neq in E. rewrite map_get_set_other by exact E.
        reflexivity.
    + assert (Hb : inBucket flt now k r = false)
        by (unfold inBucket; now rewrite Hp).
      rewrite Hb. reflexivity.
Qed.

End Buckets.

Lemma sumQ_opp {A : Type} (g : A -> Q) (l : list A) :
  sumQ (map (fun r => - g r) l) == - sumQ (map g l).
Proof.
  induction l as [|x l IH]; simpl; [reflexivity|]. rewrite IH. ring.
Qed.

(** ** Sorting the entries *)

Lemma ym_leb_lt (a b : ym) : ym_leb a b = true -> a <> b -> ym_lt a b.
Proof.
  destruct a as [a1 a2], b as [b1 b2]. unfold ym_leb, ym_lt. simpl.
  intros H Hne.
  destruct (Z.ltb_spec a1 b1); [now left|]. simpl in H.
  apply andb_true_iff in H. destruct H as [H1 H2].
  apply Z.eqb_eq in H1. apply Z.leb_le in H2. subst b1. right.
  split; [reflexivity|].
  assert (a2 <> b2) by congruence. lia.
Qed.

Lemma ym_leb_false (a b : ym) : ym_leb a b = false -> ym_lt b a.
Proof.
  destruct a as [a1 a2], b as [b1 b2]. unfold ym_leb, ym_lt. simpl.
  intros H.
  destruct (Z.ltb_spec a1 b1); [discriminate|]. simpl in H.
  destruct (Z.eqb_spec a1 b1); simpl in H.
  - apply Z.leb_gt in H. right. split; [congruence | lia].
  - left. lia.
Qed.

Lemma ym_lt_trans (a b c : ym) : ym_lt a b -> ym_lt b c -> ym_lt a c.
Proof.
  destruct a as [a1 a2], b as [b1 b2], c as [c1 c2].
  unfold ym_lt. simpl. lia.
Qed.

Lemma insert_entry_In (e x : ym * Q) (l : list (ym * Q)) :
  In x (insert_entry e l) <-> x = e \/ In x l.
Proof.
  induction l as [|e' l IH]; simpl.
  - intuition.
  - destruct (ym_leb (fst e) (fst e')); simpl; [|rewrite IH]; intuition.
Qed.

Lemma sort_entries_In (x : ym * Q) (l : list (ym * Q)) :
  In x (sort_entries l) <-> In x l.
Proof.
  induction l as [|e l IH]; simpl; [reflexivity|].
  rewrite insert_entry_In, IH. intuition.
Qed.

Lemma sort_entries_keys (k : ym) (l : list (ym * Q)) :
  In k (map fst (sort_entries l)) <-> In k (map fst l).
Proof.
  rewrite !in_map_iff. split; intros [x [Hx Hin]]; exists x;
    (split; [exact Hx|]); now apply sort_entries_In.
Qed.

Lemma insert_entry_sorted (e : ym * Q) (l : list (ym * Q)) :
  ~ In (fst e) (map fst l) ->
  StronglySorted ym_lt (map fst l) ->
  StronglySorted ym_lt (map fst (insert_entry e l)).
Proof.
  induction l as [|e' l IH]; simpl; intros Hnin Hs.
  - constructor; constructor.
  - inversion Hs as [|x xs Hs' Hall]; subst.
    destruct (ym_leb (fst e) (fst e')) eqn:E; simpl.
    + assert (Hlt : ym_lt (fst e) (fst e')).
      { apply ym_leb_lt; [exact E|]. intros Heq. apply Hnin. now left. }
      constructor; [exact Hs|]. constructor; [exact Hlt|].
      eapply Forall_impl; [|exact Hall].
      intros a Ha. eapply ym_lt_trans; eassumption.
    + constructor.
      * apply IH; [|exact Hs']. intros Hin. apply Hnin. now right.
      * apply Forall_forall. intros a Ha.
        apply in_map_iff in Ha. destruct Ha as [x [<- Hx]].
        apply insert_entry_In in Hx. destruct Hx as [-> | Hx].
        -- now apply ym_leb_false.
        -- rewrite Forall_forall in Hall. apply Hall. now apply in_map.
Qed.

Lemma sort_entries_sorted (l : list (ym * Q)) :
  NoDup (map fst l) -> StronglySorted ym_lt (map fst (sort_entries l)).
Proof.
  induction l as [|e l IH]; simpl; intros Hnd; [constructor|].
  inversion Hnd as [|x xs Hnin Hnd']; subst.
  apply insert_entry_sorted; [|now apply IH].
  now rewrite sort_entries_keys.
Qed.

(** ** Monthly chart data *)

(** C8. The chart data has one entry per month in which some row
    passes the filter and none for any other month; the months come in
    ascending order without repetition; and the value of a month is the
    sum of the nets of the invoices that pass the filter and fall in it
    minus the same sum over the expenses. *)
Theorem monthly_buckets (db : database) (flt : filters) (now : jsDate) :
  StronglySorted ym_lt (map fst (monthly db flt now))
  /\ (forall k,
        In k (map fst (monthly db flt now))
        <-> exists r, (In r (invoices db) \/ In r (expenses db))
                      /\ inBucket flt now k r = true)
  /\ (forall k v,
        In (k, v) (monthly db flt now) ->
        v == bucketNet flt now k (invoices db)
             - bucketNet flt now k (expenses db)).
Proof.
  unfold monthly.
  set (m1 := fold_left
               (fun m r => if matchesFilters flt now r
                           then add m (date r) (netUsdOf r) else m)
               (invoices db) []).
  set (m2 := fold_left
               (fun m r => if matchesFilters flt now r
                           then add m (date r) (- netUsdOf r) else m)
               (expenses db) m1).
  assert (Hnd : NoDup (map fst m2)).
  { apply (visit_NoDup flt now (fun r => - netUsdOf r)).
    apply (visit_NoDup flt now netUsdOf). constructor. }
  split; [|split].
  - now apply sort_entries_sorted.
  - intros k. rewrite sort_entries_keys. unfold m2.
    rewrite (visit_keys flt now (fun r => - netUsdOf r)). unfold m1.
    rewrite (visit_keys flt now netUsdOf). simpl. split.
    + intros [[[] | [r [Hin Hb]]] | [r [Hin Hb]]]; exists r; auto.
    + intros [r [[Hin | Hin] Hb]]; [left; right | right]; exists r; auto.
  - intros k v Hin. apply (proj1 (sort_entries_In _ _)) in Hin.
    apply (map_get_In _ _ _ Hnd) in Hin.
    assert (H2 : or0 (map_get m2 k)
                 == or0 (map_get m1 k)
                    + sumQ (map (fun r => - netUsdOf r)
                              (filter (inBucket flt now k) (expenses db))))
      by apply (visit_value flt now (fun r => - netUsdOf r)).
    assert (H1 : or0 (map_get m1 k)
                 == or0 (map_get [] k)
                    + sumQ (map netUsdOf
                              (filter (inBucket flt now k) (invoices db))))
      by apply (visit_value flt now netUsdOf).
    rewrite Hin, or0_some in H2.
    rewrite H2, H1. unfold bucketNet. rewrite sumQ_opp. simpl. ring.
Qed.

Lemma monthly_buckets_witness :
  In ((2026, 11)%Z, 1700.000) (monthly chartDoc (allFilters "6m") now0)
  /\ 1700.000
     == bucketNet (allFilters "6m") now0 (2026, 11)%Z (invoices chartDoc)
        - bucketNet (allFilters "6m") now0 (2026, 11)%Z (expenses chartDoc).
Proof.
  assert (Hin : In ((2026, 11)%Z, 1700.000)
                   (monthly chartDoc (allFilters "6m") now0))
    by (vm_compute; right; left; reflexivity).
  split; [exact Hin|].
  exact (proj2 (proj2 (monthly_buckets chartDoc (allFilters "6m") now0))
           _ _ Hin).
Defined.

(** The two invoices of November 2026 and the expense of that month make
    one entry (1000 + 900000/1000 - 200), October 2026 comes before it
    although it was inserted after it, and the invoice of January 2020
    makes no entry. *)
Example monthly_chartDoc :
  monthly chartDoc (allFilters "6m") now0
  = [ ((2026, 10)%Z, 300); ((2026, 11)%Z, 1700.000) ].
Proof. vm_compute. reflexivity. Qed.

(** ** Actions on rows *)

Lemma keeps_over {A : Type} (named : option A) (old : A) :
  keeps named old (over named old).
Proof. destruct named; reflexivity. Qed.

Lemma keeps_opt_over {A : Type} (named : option A) (old : option A) :
  keeps_opt named old (over_opt named old).
Proof. destruct named; reflexivity. Qed.

Lemma spread_patchedBy (r : row) (p : patch) : patchedBy p r (spread r p).
Proof.
  unfold patchedBy, spread. simpl.
  repeat split; first [apply keeps_over | apply keeps_opt_over].
Qed.

Lemma map_patched (p : patch) (id_ : string) (l : list row) :
  Forall2 (fun r r' => if String.eqb (id r) id_ then patchedBy p r r'
                       else r' = r)
          l (map (fun r => if String.eqb (id r) id_ then spread r p else r) l).
Proof.
  induction l as [|r l IH]; simpl; constructor; [|exact IH].
  destruct (String.eqb (id r) id_); [apply spread_patchedBy | reflexivity].
Qed.

(** C10. [updateRow] leaves meta, settings, the change log and the
    collection it is not aimed at as they are; in the collection it is
    aimed at, a row with another id is unchanged and a row with the given
    id changes in the properties the patch names only.  [removeRow]
    leaves the same parts as they are and keeps, in their order, exactly
    the rows of the collection whose id differs from the given one. *)
Theorem updateRow_removeRow_frame (type id_ : string) (p : patch)
  (cur : database) :
  (meta (updateRow type id_ p cur) = meta cur
   /\ settings (updateRow type id_ p cur) = settings cur
   /\ changelog (updateRow type id_ p cur) = changelog cur
   /\ untargeted type (updateRow type id_ p cur) = untargeted type cur
   /\ Forall2 (fun r r' => if String.eqb (id r) id_ then patchedBy p r r'
                           else r' = r)
              (targeted type cur) (targeted type (updateRow type id_ p cur)))
  /\ (meta (removeRow type id_ cur) = meta cur
      /\ settings (removeRow type id_ cur) = settings cur
      /\ changelog (removeRow type id_ cur) = changelog cur
      /\ untargeted type (removeRow type id_ cur) = untargeted type cur
      /\ targeted type (removeRow type id_ cur)
         = filter (fun r => negb (String.eqb (id r) id_)) (targeted type cur)
      /\ forall r, In r (targeted type (removeRow type id_ cur))
                   <-> In r (targeted type cur) /\ id r <> id_).
Proof.
  unfold updateRow, removeRow, targeted, untargeted.
  destruct (String.eqb type "invoice"); simpl;
    (split; [ repeat (split; [reflexivity|]); apply map_patched
            | repeat (split; [reflexivity|]) ]);
    intros r; rewrite filter_In, negb_true_iff, String.eqb_neq; reflexivity.
Qed.

(** Editing the amount of an invoice changes that property of that row
    and nothing else in the document. *)
Example updateRow_amount :
  updateRow "invoice" "r" (amountPatch 5)
            (docOf [usdRow 1000 []; pesoRow] [todayExpense])
  = docOf [usdRow 5 []; pesoRow] [todayExpense].
Proof. reflexivity. Qed.

Example removeRow_expense :
  removeRow "expense" "e1" (docOf [usdRow 1000 []; pesoRow] [todayExpense])
  = docOf [usdRow 1000 []; pesoRow] [].
Proof. reflexivity. Qed.

(** ** The change log *)

(** Whatever the action, the entries already logged stay as they are, in
    their order, behind what the action logs (newest first). *)
Lemma perform_keeps_changelog (user : option string) (a : rowAction)
  (cur : database) :
  exists new : list logEntry,
    changelog (perform user a cur) = (new ++ changelog cur)%list
    /\ (List.length new <= 1)%nat.
Proof.
  destruct a as [rowId invNo logId now today | rowId logId now today
                | type id_ p | type id_]; simpl.
  - eexists [_]. split; [reflexivity | apply le_n].
  - eexists [_]. split; [reflexivity | apply le_n].
  - exists []. split; [|apply le_0_n].
    unfold updateRow, setKey.
    destruct (String.eqb type "invoice"); reflexivity.
  - exists []. split; [|apply le_0_n].
    unfold removeRow, setKey.
    destruct (String.eqb type "invoice"); reflexivity.
Qed.

(** The two buttons log what they add. *)
Lemma additions_logged (user : option string) (rowId invNo logId now : string)
  (today : isodate) (cur : database) :
  changelog (addInvoice user rowId invNo logId now today cur)
  = {| log_id := logId; ts := now; log_user := or_str user "sys";
       action := "add_invoice"; payload := rowId |} :: changelog cur
  /\ changelog (addExpense user rowId logId now today cur)
     = {| log_id := logId; ts := now; log_user := or_str user "sys";
          action := "add_expense"; payload := rowId |} :: changelog cur.
Proof. split; reflexivity. Qed.

(** C9, at a document with two invoices and one expense and an empty
    change log: editing the amount of an invoice and deleting the expense
    both change the document and log nothing, whereas adding an invoice
    logs one entry. *)
Theorem updateRow_removeRow_unlogged :
  updateRow "invoice" "r" (amountPatch 5)
            (docOf [usdRow 1000 []; pesoRow] [todayExpense])
  <> docOf [usdRow 1000 []; pesoRow] [todayExpense]
  /\ changelog (updateRow "invoice" "r" (amountPatch 5)
                  (docOf [usdRow 1000 []; pesoRow] [todayExpense])) = []
  /\ removeRow "expense" "e1" (docOf [usdRow 1000 []; pesoRow] [todayExpense])
     <> docOf [usdRow 1000 []; pesoRow] [todayExpense]
  /\ changelog (removeRow "expense" "e1"
                  (docOf [usdRow 1000 []; pesoRow] [todayExpense])) = []
  /\ List.length (changelog (addInvoice (Some "Debi") "n" "101" "l" "t" day0
                          (docOf [usdRow 1000 []; pesoRow] [todayExpense])))
     = 1%nat.
Proof.
  split; [|split; [|split; [|split]]]; try reflexivity.
  - intros H. apply (f_equal invoices) in H. simpl in H. discriminate H.
  - intros H. apply (f_equal expenses) in H. simpl in H. discriminate H.
Qed.

(** * Further properties *)

(** ** Row actions *)

Lemma addInvoice_rows (user : option string) (rowId invNo logId now : string)
  (today : isodate) (cur : database) :
  invoices (addInvoice user rowId invNo logId now today cur)
  = newInvoice user rowId invNo today cur :: invoices cur
  /\ expenses (addInvoice user rowId invNo logId now today cur)
     = expenses cur.
Proof. split; reflexivity. Qed.

Lemma addExpense_rows (user : option string) (rowId logId now : string)
  (today : isodate) (cur : database) :
  expenses (addExpense user rowId logId now today cur)
  = newExpense user rowId today :: expenses cur
  /\ invoices (addExpense user rowId logId now today cur) = invoices cur.
Proof. split; reflexivity. Qed.

Lemma newInvoice_neutral (user : option string) (rowId invNo : string)
  (today : isodate) (cur : database) :
  debtDeltaIncome (newInvoice user rowId invNo today cur) == 0
  /\ Qmax 0 (netUsdOf (newInvoice user rowId invNo today cur)) == 0
  /\ debiUSD (splitUsd (newInvoice user rowId invNo today cur)) == 0
  /\ bochaUSD (splitUsd (newInvoice user rowId invNo today cur)) == 0.
Proof.
  unfold debtDeltaIncome.
  destruct (strict_eq (createdBy (newInvoice user rowId invNo today cur))
                      "Debi"); repeat split; reflexivity.
Qed.

Lemma newExpense_neutral (user : option string) (rowId : string)
  (today : isodate) :
  debtDeltaExpense (newExpense user rowId today) == 0.
Proof.
  unfold debtDeltaExpense.
  destruct (strict_eq (paidBy (newExpense user rowId today)) "Debi");
    reflexivity.
Qed.

(** X1. A row that one of the two buttons has just added is neutral: the
    debt balance and the three summary totals are what they were. *)
Theorem additions_neutral (user viewer : option string)
  (rowId invNo logId now : string) (today : isodate) (cur : database) :
  debt (addInvoice user rowId invNo logId now today cur) == debt cur
  /\ debt (addExpense user rowId logId now today cur) == debt cur
  /\ incomeUSD (totals (addInvoice user rowId invNo logId now today cur)
                  viewer) == incomeUSD (totals cur viewer)
  /\ yourShare (totals (addInvoice user rowId invNo logId now today cur)
                  viewer) == yourShare (totals cur viewer)
  /\ partnerShare (totals (addInvoice user rowId invNo logId now today cur)
                     viewer) == partnerShare (totals cur viewer)
  /\ totals (addExpense user rowId logId now today cur) viewer
     = totals cur viewer.
Proof.
  destruct (newInvoice_neutral user rowId invNo today cur)
    as [Hd [Hn [Hs1 Hs2]]].
  pose proof (newExpense_neutral user rowId today) as He.
  destruct (addInvoice_rows user rowId invNo logId now today cur)
    as [Hi1 Hi2].
  destruct (addExpense_rows user rowId logId now today cur) as [He1 He2].
  assert (Hi : incomeUSD (totals (addInvoice user rowId invNo logId now
                                    today cur) viewer)
               == incomeUSD (totals cur viewer)).
  { unfold totals. cbn [incomeUSD]. rewrite Hi1, !fold_left_sumQ.
    cbn [map sumQ]. rewrite Hn. ring. }
  assert (Hy : yourShare (totals (addInvoice user rowId invNo logId now
                                    today cur) viewer)
               == yourShare (totals cur viewer)).
  { unfold totals. cbn [yourShare].
    rewrite Hi1, !(fold_left_sumQ (shareOf viewer)).
    cbn [map sumQ]. unfold shareOf at 1.
    destruct (strict_eq viewer "Debi"); [rewrite Hs1 | rewrite Hs2]; ring. }
  split; [|split; [|split; [|split; [|split]]]].
  - rewrite !debt_sumQ, Hi1, Hi2. cbn [map sumQ]. rewrite Hd. ring.
  - rewrite !debt_sumQ, He1, He2. cbn [map sumQ]. rewrite He. ring.
  - exact Hi.
  - exact Hy.
  - change (incomeUSD (totals (addInvoice user rowId invNo logId now
                                 today cur) viewer)
            - yourShare (totals (addInvoice user rowId invNo logId now
                                   today cur) viewer)
            == incomeUSD (totals cur viewer) - yourShare (totals cur viewer)).
    rewrite Hi, Hy. reflexivity.
  - unfold totals. rewrite He2. reflexivity.
Qed.

Lemma setKey_getKey (cur : database) (key : string) :
  setKey cur key (getKey cur key) = cur.
Proof.
  unfold setKey, getKey. destruct cur.
  destruct (String.eqb key "invoices"); reflexivity.
Qed.

Lemma filter_all {A : Type} (p : A -> bool) (l : list A) :
  (forall x, In x l -> p x = true) -> filter p l = l.
Proof.
  induction l as [|x l IH]; simpl; intros H; [reflexivity|].
  rewrite (H x) by now left. f_equal. apply IH. intros y Hy. apply H.
  now right.
Qed.

Lemma map_same {A : Type} (g : A -> A) (l : list A) :
  (forall x, In x l -> g x = x) -> map g l = l.
Proof.
  induction l as [|x l IH]; simpl; intros H; [reflexivity|].
  rewrite (H x) by now left. f_equal. apply IH. intros y Hy. apply H.
  now right.
Qed.

Lemma targeted_getKey (type : string) (cur : database) :
  getKey cur (if String.eqb type "invoice" then "invoices" else "expenses")
  = targeted type cur.
Proof.
  unfold getKey, targeted. destruct (String.eqb type "invoice"); reflexivity.
Qed.

(** X2. An edit or a deletion aimed at an id that no row of the
    collection has leaves the whole document as it is. *)
Theorem absent_id_noop (type id_ : string) (p : patch) (cur : database) :
  (forall r, In r (targeted type cur) -> id r <> id_) ->
  updateRow type id_ p cur = cur /\ removeRow type id_ cur = cur.
Proof.
  intros H. unfold updateRow, removeRow. split.
  - rewrite map_same; [apply setKey_getKey|].
    intros r Hr. rewrite targeted_getKey in Hr. apply H in Hr.
    apply String.eqb_neq in Hr. now rewrite Hr.
  - rewrite filter_all; [apply setKey_getKey|].
    intros r Hr. rewrite targeted_getKey in Hr.
    apply negb_true_iff, String.eqb_neq. now apply H.
Qed.

Lemma absent_id_noop_witness :
  updateRow "invoice" "zz" (amountPatch 5)
            (docOf [usdRow 1000 []; pesoRow] [todayExpense])
  = docOf [usdRow 1000 []; pesoRow] [todayExpense]
  /\ removeRow "invoice" "zz" (docOf [usdRow 1000 []; pesoRow] [todayExpense])
     = docOf [usdRow 1000 []; pesoRow] [todayExpense].
Proof.
  apply (absent_id_noop "invoice" "zz" (amountPatch 5)
           (docOf [usdRow 1000 []; pesoRow] [todayExpense])).
  intros r [<- | [<- | []]]; discriminate.
Defined.

Lemma over_over {A : Type} (p : option A) (x : A) :
  over p (over p x) = over p x.
Proof. destruct p; reflexivity. Qed.

Lemma over_opt_over_opt {A : Type} (p : option A) (x : option A) :
  over_opt p (over_opt p x) = over_opt p x.
Proof. destruct p; reflexivity. Qed.

Lemma spread_spread (r : row) (p : patch) :
  spread (spread r p) p = spread r p.
Proof.
  unfold spread. simpl. rewrite !over_over, !over_opt_over_opt. reflexivity.
Qed.

(** X3. Sending the same edit twice is the same as sending it once, also
    when the patch renames the row. *)
Theorem updateRow_idempotent (type id_ : string) (p : patch)
  (cur : database) :
  updateRow type id_ p (updateRow type id_ p cur) = updateRow type id_ p cur.
Proof.
  assert (Hg : forall l : list row,
             map (fun r => if String.eqb (id r) id_ then spread r p else r)
               (map (fun r => if String.eqb (id r) id_ then spread r p else r)
                  l)
             = map (fun r => if String.eqb (id r) id_ then spread r p else r)
                 l).
  { intros l. rewrite map_map. apply map_ext. intros r.
    destruct (String.eqb (id r) id_) eqn:E; [|now rewrite E].
    destruct (String.eqb (id (spread r p)) id_); [|reflexivity].
    apply spread_spread. }
  unfold updateRow, setKey, getKey.
  destruct (String.eqb type "invoice"); simpl; now rewrite Hg.
Qed.

Lemma filter_filter_same {A : Type} (p : A -> bool) (l : list A) :
  filter p (filter p l) = filter p l.
Proof.
  apply filter_all. intros x Hx. apply filter_In in Hx. tauto.
Qed.

(** X4. After a deletion no row of the collection has the deleted id, and
    deleting again changes nothing. *)
Theorem removeRow_complete (type id_ : string) (cur : database) :
  (forall r, In r (targeted type (removeRow type id_ cur)) -> id r <> id_)
  /\ removeRow type id_ (removeRow type id_ cur) = removeRow type id_ cur.
Proof.
  unfold removeRow, setKey, getKey, targeted.
  destruct (String.eqb type "invoice"); simpl; split;
    try (intros r Hr; apply filter_In in Hr; destruct Hr as [_ Hr];
         now apply negb_true_iff, String.eqb_neq in Hr);
    now rewrite filter_filter_same.
Qed.

(** X6. Adding an invoice under an id that no invoice has and deleting
    it again gives back the rows, meta and settings; the change log
    keeps the entry of the addition. *)
Theorem add_then_remove (user : option string)
  (rowId invNo logId now : string) (today : isodate) (cur : database) :
  (forall r, In r (invoices cur) -> id r <> rowId) ->
  invoices (removeRow "invoice" rowId
              (addInvoice user rowId invNo logId now today cur))
  = invoices cur
  /\ expenses (removeRow "invoice" rowId
                 (addInvoice user rowId invNo logId now today cur))
     = expenses cur
  /\ meta (removeRow "invoice" rowId
             (addInvoice user rowId invNo logId now today cur)) = meta cur
  /\ settings (removeRow "invoice" rowId
                 (addInvoice user rowId invNo logId now today cur))
     = settings cur
  /\ changelog (removeRow "invoice" rowId
                  (addInvoice user rowId invNo logId now today cur))
     = {| log_id := logId; ts := now; log_user := or_str user "sys";
          action := "add_invoice"; payload := rowId |} :: changelog cur.
Proof.
  intros H. unfold removeRow, setKey, getKey. simpl.
  rewrite String.eqb_refl. simpl.
  repeat split. apply filter_all. intros r Hr.
  apply negb_true_iff, String.eqb_neq. now apply H.
Qed.

Lemma add_then_remove_witness :
  invoices (removeRow "invoice" "n"
              (addInvoice (Some "Debi") "n" "101" "l" "t" day0
                 (docOf [usdRow 1000 []; pesoRow] [todayExpense])))
  = [usdRow 1000 []; pesoRow].
Proof.
  apply (add_then_remove (Some "Debi") "n" "101" "l" "t" day0
           (docOf [usdRow 1000 []; pesoRow] [todayExpense])).
  intros r [<- | [<- | []]]; discriminate.
Defined.

Lemma perform_changelog (user : option string) (a : rowAction)
  (cur : database) :
  changelog (perform user a cur)
  = if isAdd a
    then {| log_id := match a with
                      | AddInvoice _ _ l _ _ => l
                      | AddExpense _ l _ _ => l
                      | _ => ""
                      end;
            ts := match a with
                  | AddInvoice _ _ _ t _ => t
                  | AddExpense _ _ t _ => t
                  | _ => ""
                  end;
            log_user := or_str user "sys";
            action := match a with
                      | AddInvoice _ _ _ _ _ => "add_invoice"
                      | _ => "add_expense"
                      end;
            payload := match a with
                       | AddInvoice i _ _ _ _ => i
                       | AddExpense i _ _ _ => i
                       | _ => ""
                       end |} :: changelog cur
    else changelog cur.
Proof.
  destruct a as [rowId invNo logId now today | rowId logId now today
                | type id_ p | type id_]; simpl; try reflexivity.
  - unfold updateRow, setKey. destruct (String.eqb type "invoice");
      reflexivity.
  - unfold removeRow, setKey. destruct (String.eqb type "invoice");
      reflexivity.
Qed.

(** X7. Over any run of row actions the change log only grows at its
    head: what was logged before stays behind it unchanged, one entry is
    logged per addition and none per edit or deletion, and every new
    entry is an "add_invoice" or an "add_expense". *)
Theorem run_changelog (user : option string) (acts : list rowAction)
  (cur : database) :
  exists new : list logEntry,
    changelog (run user acts cur) = (new ++ changelog cur)%list
    /\ List.length new = List.length (filter isAdd acts)
    /\ Forall (fun e => action e = "add_invoice" \/ action e = "add_expense")
              new.
Proof.
  unfold run. revert cur. induction acts as [|a acts IH]; intros cur; simpl.
  - exists []. repeat split. constructor.
  - destruct (IH (perform user a cur)) as [new [H1 [H2 H3]]].
    rewrite H1, perform_changelog. destruct (isAdd a) eqn:E.
    + eexists (new ++ [_])%list. split; [|split].
      * rewrite <- app_assoc. reflexivity.
      * rewrite length_app. simpl. rewrite H2. apply Nat.add_comm.
      * apply Forall_app. split; [exact H3|]. constructor; [|constructor].
        simpl. destruct a; try discriminate; auto.
    + exists new. repeat split; assumption.
Qed.

(** ** Total income *)

Lemma sumQ_map_le {A : Type} (g h : A -> Q) (l : list A) :
  (forall x, g x <= h x) -> sumQ (map g l) <= sumQ (map h l).
Proof.
  intros H. induction l as [|x l IH]; simpl; [apply Qle_refl|].
  apply Qplus_le_compat; [apply H | exact IH].
Qed.

Lemma sumQ_map_nonneg {A : Type} (g : A -> Q) (l : list A) :
  (forall x, 0 <= g x) -> 0 <= sumQ (map g l).
Proof.
  intros H. induction l as [|x l IH]; simpl; [apply Qle_refl|].
  setoid_replace 0 with (0 + 0) by ring.
  apply Qplus_le_compat; [apply H | exact IH].
Qed.

(** X11. Total income is never negative and never below the plain sum of
    the nets: a net below zero counts as zero. *)
Theorem incomeUSD_clamped (db : database) (user : option string) :
  0 <= incomeUSD (totals db user)
  /\ sumQ (map netUsdOf (invoices db)) <= incomeUSD (totals db user).
Proof.
  unfold totals. cbn [incomeUSD]. rewrite fold_left_sumQ, Qplus_0_l. split.
  - apply sumQ_map_nonneg. intros r. apply Q.le_max_l.
  - apply sumQ_map_le. intros r. apply Q.le_max_r.
Qed.

(** ** Periods *)

Section PeriodFacts.
Local Open Scope Z_scope.

Lemma isoOf_newDate (d : isodate) : isoOf (newDate d) = d.
Proof.
  destruct d as [y m d]. unfold isoOf, newDate. simpl. f_equal. lia.
Qed.

Lemma defaultStart_eq (now : jsDate) :
  0 <= monthIdx now < 12 ->
  newDate (fst (lastMonths 6 now))
  = {| fullYear := (fullYear now * 12 + monthIdx now - 5) / 12;
       monthIdx := (fullYear now * 12 + monthIdx now - 5) mod 12;
       dayOfMonth := 1; msOfDay := 0 |}.
Proof.
  intros Hm. rewrite lastMonths_start by assumption.
  unfold newDate, firstOfMonthBefore. simpl. f_equal. lia.
Qed.

Lemma dateRangeFor_ytd (now : jsDate) :
  0 <= monthIdx now < 12 ->
  dateRangeFor now "ytd" = (newDate (mkDate (fullYear now) 1 1), now).
Proof.
  intros Hm. unfold dateRangeFor. simpl String.eqb. cbv iota.
  rewrite defaultStart_eq by assumption.
  unfold setFullYear, setDate, setMonth.
  cbn [fullYear monthIdx dayOfMonth msOfDay]. rewrite makeDate_first.
  cbn [fullYear monthIdx dayOfMonth msOfDay]. rewrite makeDate_first.
  cbn [fullYear monthIdx dayOfMonth msOfDay]. rewrite makeDate_first.
  unfold newDate. simpl. rewrite Z.add_0_r. reflexivity.
Qed.

Lemma dateRangeFor_12m_early (now : jsDate) :
  0 <= monthIdx now < 5 ->
  dateRangeFor now "12m" = (newDate (firstOfMonthBefore now 23), now).
Proof.
  intros Hm. unfold dateRangeFor. simpl String.eqb. cbv iota.
  rewrite defaultStart_eq by lia.
  unfold setMonth. cbn [fullYear monthIdx dayOfMonth msOfDay].
  rewrite makeDate_first.
  unfold newDate, firstOfMonthBefore. simpl.
  f_equal. f_equal; Z.div_mod_to_equations; lia.
Qed.

Lemma dateRangeFor_fallback (now : jsDate) (p : string) :
  p <> "12m" -> p <> "ytd" -> p <> "all" ->
  dateRangeFor now p = dateRangeFor now "6m".
Proof.
  intros H1 H2 H3. unfold dateRangeFor.
  apply String.eqb_neq in H1, H2, H3. rewrite H1, H2, H3. reflexivity.
Qed.

Lemma iso_leb_spec (a b : isodate) :
  iso_leb a b = true
  <-> year a < year b
      \/ (year a = year b
          /\ (month a < month b \/ (month a = month b /\ day a <= day b))).
Proof.
  unfold iso_leb.
  destruct (Z.ltb_spec (year a) (year b)), (Z.eqb_spec (year a) (year b)),
           (Z.ltb_spec (month a) (month b)), (Z.eqb_spec (month a) (month b)),
           (Z.leb_spec (day a) (day b));
    cbn [orb andb]; split; intros; try reflexivity; try discriminate; lia.
Qed.

Lemma firstOfMonthBefore_mono (now : jsDate) (k1 k2 : Z) :
  k1 <= k2 ->
  iso_leb (firstOfMonthBefore now k2) (firstOfMonthBefore now k1) = true.
Proof.
  intros H. apply iso_leb_spec. unfold firstOfMonthBefore.
  cbn [year month day].
  set (t1 := fullYear now * 12 + monthIdx now - k1).
  set (t2 := fullYear now * 12 + monthIdx now - k2).
  assert (Ht : t2 <= t1) by (unfold t1, t2; lia).
  Z.div_mod_to_equations. lia.
Qed.

Lemma iso_leb_trans (a b c : isodate) :
  iso_leb a b = true -> iso_leb b c = true -> iso_leb a c = true.
Proof.
  rewrite !iso_leb_spec. lia.
Qed.

Lemma firstOfMonth_le_today (now : jsDate) (k : Z) :
  validNow now -> 0 <= k ->
  iso_leb (firstOfMonthBefore now k) (todayISO now) = true.
Proof.
  intros [Hm [Hd _]] Hk.
  apply (iso_leb_trans _ (firstOfMonthBefore now 0)).
  - now apply firstOfMonthBefore_mono.
  - apply iso_leb_spec. unfold firstOfMonthBefore, todayISO, isoOf.
    cbn [year month day]. Z.div_mod_to_equations. lia.
Qed.

Lemma start_cases (now : jsDate) (p : string) :
  0 <= monthIdx now < 12 ->
  isoOf (fst (dateRangeFor now p)) = mkDate 2000 1 1
  \/ isoOf (fst (dateRangeFor now p)) = mkDate (fullYear now) 1 1
  \/ exists k, 0 <= k /\
       isoOf (fst (dateRangeFor now p)) = firstOfMonthBefore now k.
Proof.
  intros Hm.
  destruct (String.eqb_spec p "all") as [-> | Ha]; [left; reflexivity|].
  destruct (String.eqb_spec p "ytd") as [-> | Hy].
  { right. left. rewrite dateRangeFor_ytd by assumption. reflexivity. }
  right. right.
  destruct (String.eqb_spec p "12m") as [-> | H12].
  - destruct (Z.lt_ge_cases (monthIdx now) 5).
    + exists 23. split; [lia|]. rewrite dateRangeFor_12m_early by lia.
      apply isoOf_newDate.
    + exists 11. split; [lia|]. rewrite dateRangeFor_12m by lia.
      apply isoOf_newDate.
  - exists 5. split; [lia|]. rewrite dateRangeFor_fallback by assumption.
    rewrite dateRangeFor_6m by assumption. apply isoOf_newDate.
Qed.

Lemma start_le_today (now : jsDate) (p : string) :
  validNow now -> 2000 <= fullYear now ->
  iso_leb (isoOf (fst (dateRangeFor now p))) (todayISO now) = true.
Proof.
  intros Hv Hy. pose proof Hv as [Hm [Hd _]].
  destruct (start_cases now p Hm) as [-> | [-> | [k [Hk ->]]]].
  - apply iso_leb_spec. unfold todayISO, isoOf. cbn [year month day]. lia.
  - apply iso_leb_spec. unfold todayISO, isoOf. cbn [year month day]. lia.
  - now apply firstOfMonth_le_today.
Qed.

Lemma iso_leb_refl (d : isodate) : iso_leb d d = true.
Proof. apply iso_leb_spec. lia. Qed.

End PeriodFacts.

(** X13. The year-to-date range starts on 1 January of the current year,
    the all-time range on 1 January 2000, and a period that is none of
    "12m", "ytd" and "all" gives the range of the last six months; every
    range ends now. *)
Theorem dateRangeFor_periods (now : jsDate) :
  validNow now ->
  dateRangeFor now "ytd" = (newDate (mkDate (fullYear now) 1 1), now)
  /\ dateRangeFor now "all" = (newDate (mkDate 2000 1 1), now)
  /\ (forall p, p <> "12m" -> p <> "ytd" -> p <> "all" ->
        dateRangeFor now p = dateRangeFor now "6m")
  /\ (forall p, snd (dateRangeFor now p) = now).
Proof.
  intros [Hm _]. split; [|split; [|split]].
  - now apply dateRangeFor_ytd.
  - reflexivity.
  - intros p. apply dateRangeFor_fallback.
  - intros p. apply dateRangeFor_end.
Qed.

Lemma dateRangeFor_periods_witness :
  dateRangeFor now0 "ytd" = (newDate (mkDate 2026 1 1), now0).
Proof.
  apply (dateRangeFor_periods now0). unfold validNow. simpl. lia.
Defined.

Lemma inRange_wider (now : jsDate) (p q : string) (r : row) :
  iso_leb (isoOf (fst (dateRangeFor now q))) (isoOf (fst (dateRangeFor now p)))
  = true ->
  inRange now p r -> inRange now q r.
Proof.
  intros H [H1 H2]. split; [|exact H2].
  eapply iso_leb_trans; eassumption.
Qed.

(** X15. Whatever the client and creator filters, a row that is shown
    for the last six months is shown for the last twelve months. *)
Theorem six_months_within_twelve (c cr : string) (now : jsDate) (r : row) :
  validNow now ->
  matchesFilters {| period := "6m"; flt_clientId := c; creator := cr |} now r
  = true ->
  matchesFilters {| period := "12m"; flt_clientId := c; creator := cr |} now r
  = true.
Proof.
  intros Hv. pose proof Hv as [Hm [_ Hms]].
  rewrite !matchesFilters_true by exact Hms.
  unfold passes_written. cbn [period flt_clientId creator].
  intros [Hr Hrest]. split; [|exact Hrest].
  apply (inRange_wider now "6m" "12m" r); [|exact Hr].
  rewrite dateRangeFor_6m by exact Hm. cbn [fst]. rewrite isoOf_newDate.
  destruct (Z.lt_ge_cases (monthIdx now) 5).
  - rewrite dateRangeFor_12m_early by lia. cbn [fst].
    rewrite isoOf_newDate. apply firstOfMonthBefore_mono. lia.
  - rewrite dateRangeFor_12m by lia. cbn [fst].
    rewrite isoOf_newDate. apply firstOfMonthBefore_mono. lia.
Qed.

Lemma six_months_within_twelve_witness :
  matchesFilters {| period := "12m"; flt_clientId := "all";
                    creator := "Bocha" |} now0 octInvoice = true.
Proof.
  apply (six_months_within_twelve "all" "Bocha" now0 octInvoice).
  - unfold validNow. simpl. lia.
  - reflexivity.
Defined.

(** X16. With UTC as the local time zone, a row that one of the two
    buttons has just added is shown (from the year 2000 on): the expense
    under every filter, the invoice under every period when the client
    and creator filters are "all". *)
Theorem additions_shown (user : option string) (rowId invNo : string)
  (now : jsDate) (cur : database) (flt : filters) :
  validNow now -> (2000 <= fullYear now)%Z ->
  matchesFilters flt now (newExpense user rowId (todayISO now)) = true
  /\ matchesFilters (allFilters (period flt)) now
       (newInvoice user rowId invNo (todayISO now) cur) = true.
Proof.
  intros Hv Hy. pose proof Hv as [_ [_ Hms]].
  rewrite !matchesFilters_true by exact Hms.
  unfold passes_written, inRange. cbn [period flt_clientId creator allFilters].
  split.
  - split; [split|].
    + now apply start_le_today.
    + apply iso_leb_refl.
    + split; left; reflexivity.
  - split; [split|].
    + now apply start_le_today.
    + apply iso_leb_refl.
    + split; right; left; reflexivity.
Qed.

Lemma additions_shown_witness :
  matchesFilters bochaOnly now0 (newExpense (Some "Debi") "n" (todayISO now0))
  = true
  /\ matchesFilters (allFilters (period bochaOnly)) now0
       (newInvoice (Some "Debi") "n" "101" (todayISO now0)
          (docOf [] [])) = true.
Proof.
  apply (additions_shown (Some "Debi") "n" "101" now0 (docOf [] []) bochaOnly).
  - unfold validNow. simpl. lia.
  - simpl. lia.
Defined.

(** ** The chart *)

Lemma visitRow_filter (flt : filters) (now : jsDate) (f : row -> Q)
  (l : list row) (m : jsMap) :
  fold_left (visitRow flt now f) (filter (matchesFilters flt now) l) m
  = fold_left (visitRow flt now f) l m.
Proof.
  revert m. induction l as [|r l IH]; intros m; simpl; [reflexivity|].
  destruct (matchesFilters flt now r) eqn:E; simpl; rewrite IH.
  - reflexivity.
  - f_equal. unfold visitRow. now rewrite E.
Qed.

(** X18. The chart of the rows that the two tables show (the rows that
    pass the filter) is the chart of the whole document. *)
Theorem monthly_of_shown_rows (db : database) (flt : filters)
  (now : jsDate) :
  monthly {| meta := meta db; settings := settings db;
             invoices := filter (matchesFilters flt now) (invoices db);
             expenses := filter (matchesFilters flt now) (expenses db);
             changelog := changelog db |} flt now
  = monthly db flt now.
Proof.
  unfold monthly. cbn [invoices expenses]. f_equal.
  change (fold_left (visitRow flt now (fun r => - netUsdOf r))
            (filter (matchesFilters flt now) (expenses db))
            (fold_left (visitRow flt now netUsdOf)
               (filter (matchesFilters flt now) (invoices db)) [])
          = fold_left (visitRow flt now (fun r => - netUsdOf r))
              (expenses db)
              (fold_left (visitRow flt now netUsdOf) (invoices db) [])).
  now rewrite !visitRow_filter.
Qed.

(** ** Clients *)

Lemma find_app_first {A : Type} (p : A -> bool) (l l' : list A) :
  find p (l ++ l')
  = match find p l with
    | Some x => Some x
    | None => find p l'
    end.
Proof.
  induction l as [|x l IH]; simpl; [reflexivity|].
  destruct (p x); [reflexivity | exact IH].
Qed.

Lemma find_absent {A : Type} (p : A -> bool) (l : list A) :
  (forall x, In x l -> p x = false) -> find p l = None.
Proof.
  induction l as [|x l IH]; simpl; intros H; [reflexivity|].
  rewrite (H x) by now left. apply IH. intros y Hy. apply H. now right.
Qed.

Lemma find_present {A : Type} (p : A -> bool) (l : list A) :
  (exists x, In x l /\ p x = true) -> exists y, find p l = Some y.
Proof.
  induction l as [|x l IH]; simpl; intros [y [Hy Hp]]; [contradiction|].
  destruct (p x) eqn:E; [now exists x|].
  apply IH. destruct Hy as [-> | Hy]; [congruence|]. now exists y.
Qed.

(** X20. Looking up a client id that no client has gives the dash.  A
    client added under a fresh id and with a name is found under the id
    "c-" followed by that id, with its name; and adding a client changes
    the name shown for no id that some client already has. *)
Theorem addClient_ClientName (uid name_ : string) (cur : database) :
  (forall i, (forall c, In c (clients (meta cur)) -> client_id c <> i) ->
     ClientName i cur = "—")
  /\ ((forall c, In c (clients (meta cur)) -> client_id c <> "c-" ++ uid) ->
      name_ <> "" ->
      ClientName ("c-" ++ uid) (addClient uid name_ cur) = name_)
  /\ (forall i, (exists c, In c (clients (meta cur)) /\ client_id c = i) ->
        ClientName i (addClient uid name_ cur) = ClientName i cur).
Proof.
  split; [|split].
  - intros i H. unfold ClientName. rewrite find_absent; [reflexivity|].
    intros c Hc. apply String.eqb_neq. now apply H.
  - intros H Hn. unfold ClientName, addClient. cbn [meta clients].
    rewrite find_app_first, find_absent.
    + cbn [find client_id]. rewrite String.eqb_refl. cbn [name].
      unfold or_str, truthy_str. apply String.eqb_neq in Hn. now rewrite Hn.
    + intros c Hc. apply String.eqb_neq. now apply H.
  - intros i [c [Hc Hi]]. unfold ClientName, addClient. cbn [meta clients].
    rewrite find_app_first.
    destruct (find_present (fun c => String.eqb (client_id c) i)
                (clients (meta cur))) as [y Hy].
    { exists c. split; [exact Hc|]. now apply String.eqb_eq. }
    now rewrite Hy.
Qed.

Lemma addClient_ClientName_witness :
  ClientName "c-new" (addClient "new" "Acme" (docOf [] [])) = "Acme"
  /\ ClientName "c-lions" (addClient "new" "Acme" (docOf [] []))
     = ClientName "c-lions" (docOf [] []).
Proof.
  split.
  - apply (proj1 (proj2 (addClient_ClientName "new" "Acme" (docOf [] [])))).
    + intros c [<- | []]. discriminate.
    + discriminate.
  - apply (proj2 (proj2 (addClient_ClientName "new" "Acme" (docOf [] [])))).
    exists {| client_id := "c-lions"; name := "Lions" |}.
    split; [left; reflexivity | reflexivity].
Defined.

(** ** Edits that do not touch the amounts *)

Lemma spread_descriptive (r : row) (p : patch) :
  descriptive p ->
  usdOf (spread r p) = usdOf r /\ netUsdOf (spread r p) = netUsdOf r
  /\ splitUsd (spread r p) = splitUsd r
  /\ debtDeltaIncome (spread r p) = debtDeltaIncome r
  /\ debtDeltaExpense (spread r p) = debtDeltaExpense r.
Proof.
  intros [H1 [H2 [H3 [H4 [H5 [H6 H7]]]]]].
  unfold debtDeltaIncome, debtDeltaExpense, splitUsd, netUsdOf, usdOf, spread.
  cbn [currency amount fxRate createdBy paidBy adjustments split].
  rewrite H1, H2, H3, H4, H5, H6, H7. cbn [over over_opt].
  repeat split; reflexivity.
Qed.

Lemma fold_left_map_same {A : Type} (g : A -> A) (f : A -> Q) (l : list A)
  (acc : Q) :
  (forall x, f (g x) = f x) ->
  fold_left (fun a r => a + f r) (map g l) acc
  = fold_left (fun a r => a + f r) l acc.
Proof.
  intros H. revert acc. induction l as [|x l IH]; intros acc; simpl.
  - reflexivity.
  - rewrite H. apply IH.
Qed.

(** X21. An edit that names none of currency, amount, rate, creator,
    payer, adjustments and split (an edit of the date, the client, the
    invoice number, the description, the notes or the id) changes neither
    the debt balance nor the summary totals. *)
Theorem descriptive_edit_neutral (type id_ : string) (p : patch)
  (cur : database) (user : option string) :
  descriptive p ->
  debt (updateRow type id_ p cur) = debt cur
  /\ totals (updateRow type id_ p cur) user = totals cur user.
Proof.
  intros Hp.
  assert (Hg : forall (f : row -> Q),
             (forall r, f (spread r p) = f r) ->
             forall l acc,
               fold_left (fun a r => a + f r)
                 (map (fun r => if String.eqb (id r) id_ then spread r p
                                else r) l) acc
               = fold_left (fun a r => a + f r) l acc).
  { intros f Hf l acc. apply fold_left_map_same. intros r.
    destruct (String.eqb (id r) id_); [apply Hf | reflexivity]. }
  assert (Hnet : forall r, Qmax 0 (netUsdOf (spread r p))
                           = Qmax 0 (netUsdOf r)).
  { intros r. destruct (spread_descriptive r p Hp) as [_ [-> _]].
    reflexivity. }
  assert (Hsh : forall r, shareOf user (spread r p) = shareOf user r).
  { intros r. unfold shareOf.
    destruct (spread_descriptive r p Hp) as [_ [_ [-> _]]]. reflexivity. }
  assert (Hi : forall r, debtDeltaIncome (spread r p) = debtDeltaIncome r).
  { intros r. now destruct (spread_descriptive r p Hp) as [_ [_ [_ [-> _]]]]. }
  assert (He : forall r, debtDeltaExpense (spread r p) = debtDeltaExpense r).
  { intros r. now destruct (spread_descriptive r p Hp) as [_ [_ [_ [_ ->]]]]. }
  unfold debt, totals, updateRow, setKey, getKey.
  destruct (String.eqb type "invoice"); cbn [String.eqb Ascii.eqb Bool.eqb
    invoices expenses]; simpl String.eqb; cbv iota;
    cbn [invoices expenses].
  - rewrite (Hg debtDeltaIncome Hi).
    rewrite (Hg (fun r => Qmax 0 (netUsdOf r)) Hnet).
    change (fun a r => a + (if strict_eq user "Debi"
                            then debiUSD (splitUsd r)
                            else bochaUSD (splitUsd r)))
      with (fun a r => a + shareOf user r).
    rewrite (Hg (shareOf user) Hsh). split; reflexivity.
  - rewrite (Hg debtDeltaExpense He). split; reflexivity.
Qed.

Lemma descriptive_edit_neutral_witness :
  debt (updateRow "invoice" "r" (notesPatch "paid")
          (docOf [usdRow 1000 []; pesoRow] [todayExpense]))
  = debt (docOf [usdRow 1000 []; pesoRow] [todayExpense]).
Proof.
  apply (descriptive_edit_neutral "invoice" "r" (notesPatch "paid")
           (docOf [usdRow 1000 []; pesoRow] [todayExpense]) None).
  repeat split.
Defined.

(** ** Rows of the future and ranges *)

(** X22. For every n >= 1 the range of [lastMonths n] starts on the
    first day of the month n - 1 months before the current one, ends
    today, and is not empty. *)
Theorem lastMonths_range (n : Z) (now : jsDate) :
  validNow now -> (1 <= n)%Z ->
  fst (lastMonths n now) = firstOfMonthBefore now (n - 1)
  /\ snd (lastMonths n now) = todayISO now
  /\ iso_leb (fst (lastMonths n now)) (snd (lastMonths n now)) = true.
Proof.
  intros Hv Hn. pose proof Hv as [Hm _].
  rewrite lastMonths_start by exact Hm.
  split; [reflexivity|]. split; [reflexivity|].
  cbn [snd lastMonths]. apply firstOfMonth_le_today; [exact Hv | lia].
Qed.

Lemma lastMonths_range_witness :
  fst (lastMonths 6 now0) = mkDate 2026 6 1.
Proof.
  apply (lastMonths_range 6 now0).
  - unfold validNow. simpl. lia.
  - lia.
Defined.

(** X23. A row dated after today is shown under no filter. *)
Theorem future_rows_hidden (flt : filters) (now : jsDate) (r : row) :
  validNow now ->
  iso_leb (date r) (todayISO now) = false ->
  matchesFilters flt now r = false.
Proof.
  intros [_ [_ Hms]] Hf.
  destruct (matchesFilters flt now r) eqn:E; [|reflexivity].
  apply (matchesFilters_true flt now r Hms) in E.
  destruct E as [[_ Ht] _]. congruence.
Qed.

Lemma future_rows_hidden_witness :
  matchesFilters (allFilters "all") now0
    (usdInvoice "f" (mkDate 2026 11 3) "Debi" 100 [] half) = false.
Proof.
  apply (future_rows_hidden (allFilters "all") now0
           (usdInvoice "f" (mkDate 2026 11 3) "Debi" 100 [] half)).
  - unfold validNow. simpl. lia.
  - reflexivity.
Defined.
